(** * Nest LMS: authentication, access gate and client credential store

    A shallow embedding of the authentication flow of the learning-management
    application (NestJS backend, React/axios client):

    - [UsersService], [AuthService], [AuthController]: registration and login;
    - [JwtStrategy], [JwtAuthGuard]: the access gate of protected routes;
    - [CoursesController], [CoursesService]: the admin-only course creation;
    - [EnrollmentsService]: enrolling a student into a course;
    - [Api]: the axios request/response interceptors of the client.

    Asynchronous service methods run one request at a time; [await] is plain
    sequencing.  A service method is a computation in the monad [M]: it reads
    and writes the relational store [Db] and either returns a value or throws
    an HTTP exception. *)

From stdpp Require Import gmap strings list.
From Stdlib Require Import ZArith.

Local Open Scope string_scope.
Local Open Scope Z_scope.

(** ** JavaScript values and objects *)

Inductive JsVal : Type :=
| JUndefined
| JNum (n : Z)
| JStr (s : string).

#[global] Instance JsVal_eq_dec : EqDecision JsVal.
Proof. solve_decision. Defined.

(** A plain JS object: a finite map from property names to values. *)
Abbreviation JsObj := (gmap string JsVal).

(** Property access [o.k]; a missing property reads as [undefined]. *)
Definition js_get (o : JsObj) (k : string) : JsVal := default JUndefined (o !! k).

(** Rest destructuring [const { k: _, ...rest } = o]. *)
Definition js_omit (k : string) (o : JsObj) : JsObj := delete k o.

(** [a || b] on an optional string: [undefined] and [''] are falsy. *)
Definition js_or (a : option string) (b : string) : string :=
  match a with
  | Some s => if decide (s = "") then b else s
  | None => b
  end.

(** ** HTTP exceptions of @nestjs/common *)

Inductive HttpException : Type :=
| UnauthorizedException (message : string)
| ForbiddenException (message : string)
| NotFoundException (message : string)
| ConflictException (message : string)
| QueryFailedError (message : string).

#[global] Instance HttpException_eq_dec : EqDecision HttpException.
Proof. solve_decision. Defined.

(** The status code of the response the exception filter sends.  A
    [QueryFailedError] of the database driver is not an [HttpException] and
    surfaces as an internal server error. *)
Definition getStatus (e : HttpException) : Z :=
  match e with
  | UnauthorizedException _ => 401
  | ForbiddenException _ => 403
  | NotFoundException _ => 404
  | ConflictException _ => 409
  | QueryFailedError _ => 500
  end.

Definition getMessage (e : HttpException) : string :=
  match e with
  | UnauthorizedException m | ForbiddenException m | NotFoundException m
  | ConflictException m | QueryFailedError m => m
  end.

(** [new UnauthorizedException()] without argument. *)
Definition UnauthorizedException_default : HttpException :=
  UnauthorizedException "Unauthorized".

(** ** Entities *)

Module User.
Record t : Type := mk {
  id : Z;
  name : string;
  email : string;
  password : string;
  role : string;
}.

(** The entity as the JS object the services pass around (relations are not
    loaded by the queries of this flow). *)
Definition to_obj (u : t) : JsObj :=
  <["id" := JNum (id u)]>
  (<["name" := JStr (name u)]>
  (<["email" := JStr (email u)]>
  (<["password" := JStr (password u)]>
  (<["role" := JStr (role u)]> ∅)))).
End User.

Module Course.
Record t : Type := mk {
  id : Z;
  title : string;
  description : string;
  videoUrl : option string;
  thumbnailUrl : option string;
  instructor : Z;
}.
End Course.

Module Enrollment.
Record t : Type := mk {
  id : Z;
  student : Z;
  course : Z;
}.
End Enrollment.

#[global] Instance User_eq_dec : EqDecision User.t.
Proof. solve_decision. Defined.
#[global] Instance Course_eq_dec : EqDecision Course.t.
Proof. solve_decision. Defined.
#[global] Instance Enrollment_eq_dec : EqDecision Enrollment.t.
Proof. solve_decision. Defined.

(** ** The relational store

    One table per entity, rows in insertion order, and the sequence behind
    each [@PrimaryGeneratedColumn]. *)

Record Db : Type := mkDb {
  users : list User.t;
  user_seq : Z;
  courses : list Course.t;
  course_seq : Z;
  enrollments : list Enrollment.t;
  enrollment_seq : Z;
}.

(** The store after a row was appended to a table: the sequence of the table
    moves on. *)
Definition with_user (db : Db) (u : User.t) : Db :=
  mkDb (users db ++ [u]) (user_seq db + 1) (courses db) (course_seq db)
       (enrollments db) (enrollment_seq db).

Definition with_course (db : Db) (c : Course.t) : Db :=
  mkDb (users db) (user_seq db) (courses db ++ [c]) (course_seq db + 1)
       (enrollments db) (enrollment_seq db).

Definition with_enrollment (db : Db) (e : Enrollment.t) : Db :=
  mkDb (users db) (user_seq db) (courses db) (course_seq db)
       (enrollments db ++ [e]) (enrollment_seq db + 1).

(** ** Results and the service monad *)

Inductive Result (A : Type) : Type :=
| Ok (a : A)
| Throw (e : HttpException).
Arguments Ok {A} a.
Arguments Throw {A} e.

Definition M (A : Type) : Type := Db → Result A * Db.

#[global] Instance M_ret : MRet M := λ A a db, (Ok a, db).

#[global] Instance M_bind : MBind M := λ A B f m db,
  match m db with
  | (Ok a, db') => f a db'
  | (Throw e, db') => (Throw e, db')
  end.

Definition throw {A : Type} (e : HttpException) : M A := λ db, (Throw e, db).

(** A read-only query. *)
Definition query {A : Type} (f : Db → A) : M A := λ db, (Ok (f db), db).

(** ** Repositories (TypeORM) *)

Module usersRepo.
Definition findOneBy (p : User.t → bool) : M (option User.t) :=
  query (λ db, find p (users db)).

(** [save] of the entity [create] builds from the four properties of the
    DTO, which carries no id: a row is inserted, the [unique] constraint on
    [email] is checked by the database, the id is drawn from the sequence. *)
Definition save (name email password role : string) : M User.t := λ db,
  if existsb (λ u, bool_decide (User.email u = email)) (users db)
  then (Throw (QueryFailedError "duplicate key value violates unique constraint"), db)
  else
    let u := User.mk (user_seq db) name email password role in
    (Ok u, with_user db u).
End usersRepo.

(** The range of the [integer] type of the id columns.  A query that binds a
    value outside it is rejected by the database. *)
Definition int4 (n : Z) : bool := (-2147483648 <=? n) && (n <=? 2147483647).

Definition out_of_range : HttpException :=
  QueryFailedError "value out of range for type integer".

(** The body of a course request, as far as the columns of the entity go:
    the controller takes [body: any], so every property may be missing, and
    the body may carry an [id].  [coursesRepo.create] keeps the properties
    that are columns; this record has those.  Relation properties
    ([enrollments], [lessons]) of a body are not part of it. *)
Module CourseBody.
Record t : Type := mk {
  id : option Z;
  title : option string;
  description : option string;
  videoUrl : option string;
  thumbnailUrl : option string;
}.
End CourseBody.

Module coursesRepo.
(** [findOne({ where: { id } })]. *)
Definition findOneById (id : Z) : M (option Course.t) :=
  if int4 id
  then query (λ db, find (λ c, bool_decide (Course.id c = id)) (courses db))
  else throw out_of_range.

(** The row an [INSERT] of the entity [{...course, instructor}] forms under
    the id [id]: [title] and [description] are [NOT NULL] columns. *)
Definition inserted (id : Z) (course : CourseBody.t) (instructor : Z) : option Course.t :=
  match CourseBody.title course, CourseBody.description course with
  | Some title, Some description =>
    Some (Course.mk id title description
            (CourseBody.videoUrl course) (CourseBody.thumbnailUrl course) instructor)
  | _, _ => None
  end.

(** The row an [UPDATE] with the entity leaves: a property the entity does
    not define keeps its value. *)
Definition updated (old : Course.t) (course : CourseBody.t) (instructor : Z) : Course.t :=
  Course.mk (Course.id old)
    (default (Course.title old) (CourseBody.title course))
    (default (Course.description old) (CourseBody.description course))
    (match CourseBody.videoUrl course with
     | Some url => Some url
     | None => Course.videoUrl old
     end)
    (match CourseBody.thumbnailUrl course with
     | Some url => Some url
     | None => Course.thumbnailUrl old
     end)
    instructor.

(** [UPDATE course SET ... WHERE id = c.id]. *)
Definition replace (c : Course.t) (rows : list Course.t) : list Course.t :=
  (λ row, if bool_decide (Course.id row = Course.id c) then c else row) <$> rows.

(** The foreign key of [instructor]. *)
Definition instructor_stored (instructor : Z) (db : Db) : bool :=
  existsb (λ u, bool_decide (User.id u = instructor)) (users db).

(** [save] of the entity [{...course, instructor}].  An entity that carries
    an id is looked up: when a row has that id the row is updated, otherwise
    a row is inserted under that id and the sequence is left alone.  An
    entity without id is inserted under the next value of the sequence; the
    value is consumed also when the insertion fails. *)
Definition save (course : CourseBody.t) (instructor : Z) : M Course.t := λ db,
  match CourseBody.id course with
  | Some id =>
    if negb (int4 id) then (Throw out_of_range, db)
    else if negb (instructor_stored instructor db)
    then (Throw (QueryFailedError "violates foreign key constraint"), db)
    else
      match find (λ c, bool_decide (Course.id c = id)) (courses db) with
      | Some old =>
        let c := updated old course instructor in
        (Ok c, mkDb (users db) (user_seq db) (replace c (courses db)) (course_seq db)
                    (enrollments db) (enrollment_seq db))
      | None =>
        match inserted id course instructor with
        | Some c =>
          (Ok c, mkDb (users db) (user_seq db) (courses db ++ [c]) (course_seq db)
                      (enrollments db) (enrollment_seq db))
        | None => (Throw (QueryFailedError "violates not-null constraint"), db)
        end
      end
  | None =>
    let consumed := mkDb (users db) (user_seq db) (courses db) (course_seq db + 1)
                         (enrollments db) (enrollment_seq db) in
    match inserted (course_seq db) course instructor with
    | Some c =>
      if existsb (λ row, bool_decide (Course.id row = course_seq db)) (courses db)
      then (Throw (QueryFailedError "duplicate key value violates unique constraint"),
            consumed)
      else if negb (instructor_stored instructor db)
      then (Throw (QueryFailedError "violates foreign key constraint"), consumed)
      else (Ok c, with_course db c)
    | None => (Throw (QueryFailedError "violates not-null constraint"), consumed)
    end
  end.
End coursesRepo.

Module enrollmentsRepo.
(** [findOne({ where: { student: { id: studentId }, course: { id: courseId } } })]. *)
Definition findOneByPair (studentId courseId : Z) : M (option Enrollment.t) :=
  if int4 studentId && int4 courseId
  then query (λ db, find (λ e, bool_decide (Enrollment.student e = studentId)
                               && bool_decide (Enrollment.course e = courseId))
                         (enrollments db))
  else throw out_of_range.

(** The foreign keys of [student] and [course]. *)
Definition references_stored (student course : Z) (db : Db) : bool :=
  existsb (λ u, bool_decide (User.id u = student)) (users db)
  && existsb (λ c, bool_decide (Course.id c = course)) (courses db).

(** [save] of a new enrollment: the id is drawn from the sequence, also when
    the foreign keys reject the row. *)
Definition save (student course : Z) : M Enrollment.t := λ db,
  let e := Enrollment.mk (enrollment_seq db) student course in
  if references_stored student course db
  then (Ok e, with_enrollment db e)
  else (Throw (QueryFailedError "violates foreign key constraint"),
        mkDb (users db) (user_seq db) (courses db) (course_seq db)
             (enrollments db) (enrollment_seq db + 1)).
End enrollmentsRepo.

(** ** bcrypt

    The library is a parameter: [bcrypt_hash data rounds salt] is the hash
    [bcrypt.hash(data, rounds)] computes when it draws [salt], and
    [bcrypt_compare data encrypted] is [bcrypt.compare(data, encrypted)]. *)

Class Bcrypt : Type := {
  bcrypt_hash : string → Z → string → string;
  bcrypt_compare : string → string → bool;
}.

(** ** JSON Web Tokens

    Tokens are symbolic: a token records its claim set, its timestamps and
    the key that signed it.  Verification with a key succeeds exactly on the
    tokens that key signed. *)

Record Token : Type := mkToken {
  tok_payload : JsObj;
  tok_iat : Z;
  tok_exp : option Z;
  tok_key : string;
}.

Definition jwt_expired (now : Z) (tok : Token) : bool :=
  match tok_exp tok with
  | Some e => bool_decide (e ≤ now)
  | None => false
  end.

(** [jwt.verify(token, secretOrKey, { ignoreExpiration })] at time [now]. *)
Definition jwt_verify (secretOrKey : string) (ignoreExpiration : bool)
    (now : Z) (tok : Token) : option JsObj :=
  if decide (tok_key tok = secretOrKey) then
    if negb ignoreExpiration && jwt_expired now tok then None
    else Some (tok_payload tok)
  else None.

(** [jwt.decode(token)]: the claim set, without any check. *)
Definition jwt_decode (tok : Token) : JsObj := tok_payload tok.

Module JwtService.
(** The options [JwtModule.register] was given. *)
Record t : Type := mk {
  secret : string;
  expiresIn : option Z;
}.

Definition sign (svc : t) (now : Z) (payload : JsObj) : Token :=
  mkToken payload now ((λ d, now + d) <$> expiresIn svc) (secret svc).
End JwtService.

(** ** Request bodies *)

(** Modelled from the spec: the class [RegisterDto] is not among the
    sources; the body of a registration is [{name, email, password, role?}].
    Properties a body carries beyond these are not part of the record. *)
Module RegisterDto.
Record t : Type := mk {
  name : string;
  email : string;
  password : string;
  role : option string;
}.
End RegisterDto.

(** Modelled from the spec: the class [AuthPayloadDto] is not among the
    sources; the body of a login is [{email, password}]. *)
Module AuthPayloadDto.
Record t : Type := mk {
  email : string;
  password : string;
}.
End AuthPayloadDto.

(** The argument of [UsersService.create]: [{...registerDto, role}]. *)
Module CreateUserDto.
Record t : Type := mk {
  name : string;
  email : string;
  password : string;
  role : string;
}.
End CreateUserDto.

(** ** UsersService *)

Module UsersService.
Section UsersService.
Context `{Bcrypt}.

(** Modelled from the spec: the body of [UsersService.findByEmail] is not
    among the sources; the issuer "looks up the principal by email". *)
Definition findByEmail (email : string) : M (option User.t) :=
  usersRepo.findOneBy (λ u, bool_decide (User.email u = email)).

(** Modelled from the spec: the body of [UsersService.findOne] is not among
    the sources; the gate "re-fetches the current principal record" whose id
    is the subject of the claim set. *)
Definition findOne (id : JsVal) : M (option User.t) :=
  usersRepo.findOneBy (λ u, bool_decide (JNum (User.id u) = id)).

(** [salt] is the salt [bcrypt.hash] draws for this call. *)
Definition create (salt : string) (user : CreateUserDto.t) : M User.t :=
  let hashedPassword := bcrypt_hash (CreateUserDto.password user) 10 salt in
  usersRepo.save (CreateUserDto.name user) (CreateUserDto.email user)
                 hashedPassword (CreateUserDto.role user).

Definition validatePassword (user : User.t) (password : string) : M bool :=
  mret (bcrypt_compare password (User.password user)).
End UsersService.
End UsersService.

(** ** AuthService and AuthController *)

Record LoginResponse : Type := mkLoginResponse {
  access_token : Token;
  user : JsObj;
}.

Module AuthService.
Section AuthService.
Context `{Bcrypt} (jwtService : JwtService.t).

(** [now] is the clock reading [jwtService.sign] stamps the token with. *)
Definition login (now : Z) (user : JsObj) : M LoginResponse :=
  let payload : JsObj :=
    <["email" := js_get user "email"]>
    (<["sub" := js_get user "id"]>
    (<["role" := js_get user "role"]> ∅)) in
  mret (mkLoginResponse
    (JwtService.sign jwtService now payload)
    (<["id" := js_get user "id"]>
     (<["name" := js_get user "name"]>
     (<["email" := js_get user "email"]>
     (<["role" := js_get user "role"]> ∅))))).

Definition validateUser (authPayload : AuthPayloadDto.t) : M JsObj :=
  let email := AuthPayloadDto.email authPayload in
  let password := AuthPayloadDto.password authPayload in
  user ← UsersService.findByEmail email;
  match user with
  | None => throw (UnauthorizedException "Invalid credentials")
  | Some user =>
    isPasswordValid ← UsersService.validatePassword user password;
    if negb isPasswordValid
    then throw (UnauthorizedException "Invalid credentials")
    else
      let result := js_omit "password" (User.to_obj user) in
      mret result
  end.

Definition register (now : Z) (salt : string) (registerDto : RegisterDto.t)
    : M LoginResponse :=
  existingUser ← UsersService.findByEmail (RegisterDto.email registerDto);
  match existingUser with
  | Some _ => throw (UnauthorizedException "Email already exists")
  | None =>
    user ← UsersService.create salt
      (CreateUserDto.mk (RegisterDto.name registerDto)
                        (RegisterDto.email registerDto)
                        (RegisterDto.password registerDto)
                        (js_or (RegisterDto.role registerDto) "student"));
    let result := js_omit "password" (User.to_obj user) in
    login now result
  end.
End AuthService.
End AuthService.

Module AuthController.
Section AuthController.
Context `{Bcrypt} (jwtService : JwtService.t).

Definition register (now : Z) (salt : string) (registerDto : RegisterDto.t)
    : M LoginResponse :=
  AuthService.register jwtService now salt registerDto.

Definition login (now : Z) (authPayload : AuthPayloadDto.t) : M LoginResponse :=
  user ← AuthService.validateUser authPayload;
  AuthService.login jwtService now user.
End AuthController.
End AuthController.

(** ** The access gate: JwtStrategy and JwtAuthGuard *)

(** What the [Authorization] header carries after the [Bearer] scheme: a
    string that does not parse as a token, or a well-formed token. *)
Inductive Credential : Type :=
| Malformed (raw : string)
| Jwt (tok : Token).

Record Request (B : Type) : Type := mkRequest {
  bearer : option Credential;
  body : B;
}.
Arguments mkRequest {B} bearer body.
Arguments bearer {B} r.
Arguments body {B} r.

Module ReqUser.
Record t : Type := mk {
  id : Z;
  email : string;
  role : string;
  name : string;
}.
End ReqUser.

Module JwtStrategy.
Definition ignoreExpiration : bool := false.
Definition secretOrKey : string := "abc123".

Definition validate (payload : JsObj) : M ReqUser.t :=
  user ← UsersService.findOne (js_get payload "sub");
  match user with
  | None => throw UnauthorizedException_default
  | Some user =>
    mret (ReqUser.mk (User.id user) (User.email user) (User.role user) (User.name user))
  end.
End JwtStrategy.

Module JwtAuthGuard.
(** [AuthGuard('jwt')]: the token is taken from the header and verified with
    the options of the strategy; any failure, and a falsy result of
    [validate], throws [new UnauthorizedException()].  The result is what the
    controller reads as [req.user]. *)
Definition canActivate (now : Z) (cred : option Credential) : M ReqUser.t :=
  match cred with
  | None => throw UnauthorizedException_default
  | Some (Malformed _) => throw UnauthorizedException_default
  | Some (Jwt tok) =>
    match jwt_verify JwtStrategy.secretOrKey JwtStrategy.ignoreExpiration now tok with
    | None => throw UnauthorizedException_default
    | Some payload => JwtStrategy.validate payload
    end
  end.
End JwtAuthGuard.

(** ** Courses *)

Module CoursesService.
(** [coursesRepo.create({...course, instructor})], then [save]. *)
Definition create (course : CourseBody.t) (instructor : Z) : M Course.t :=
  coursesRepo.save course instructor.
End CoursesService.

Module CoursesController.
(** [@Post() @UseGuards(JwtAuthGuard) create(req, body)]. *)
Definition create (now : Z) (req : Request CourseBody.t) : M Course.t :=
  req_user ← JwtAuthGuard.canActivate now (bearer req);
  if decide (ReqUser.role req_user ≠ "admin")
  then throw (ForbiddenException "Only admins can create courses")
  else
    let instructor := ReqUser.id req_user in
    CoursesService.create (body req) instructor.
End CoursesController.

(** ** Enrollments *)

Module EnrollmentsService.
Definition enroll (studentId courseId : Z) : M Enrollment.t :=
  existing ← enrollmentsRepo.findOneByPair studentId courseId;
  match existing with
  | Some _ => throw (ConflictException "Already enrolled")
  | None =>
    course ← coursesRepo.findOneById courseId;
    match course with
    | None => throw (NotFoundException "Course not found")
    | Some _ => enrollmentsRepo.save studentId courseId
    end
  end.
End EnrollmentsService.

(** ** The client: axios instance [api] and its interceptors *)

Module Api.
Record Browser : Type := mkBrowser {
  localStorage : gmap string string;
  location_href : string;
}.

Record RequestConfig : Type := mkConfig {
  method : string;
  url : string;
  headers_Authorization : option string;
}.

Record Response : Type := mkResponse {
  status : Z;
  data : string;
  config : RequestConfig;
}.

(** An axios error; [response] is absent when no response was received. *)
Record AxiosError : Type := mkError {
  response : option Response;
}.

(** Request interceptor: attach the stored token, if any.  An empty string
    is falsy. *)
Definition request_interceptor (config : RequestConfig) (b : Browser) : RequestConfig :=
  match localStorage b !! "token" with
  | Some token =>
    if decide (token = "") then config
    else mkConfig (method config) (url config) (Some ("Bearer " +:+ token))
  | None => config
  end.

(** Response interceptor, success handler. *)
Definition response_fulfilled (response : Response) : Response := response.

(** Response interceptor, error handler; the error is then rejected again. *)
Definition response_rejected (error : AxiosError) (b : Browser) : Browser :=
  if decide (status <$> response error = Some 401)
  then mkBrowser (delete "user" (delete "token" (localStorage b))) "/login"
  else b.

(** axios' default [validateStatus]. *)
Definition validateStatus (status : Z) : bool :=
  (200 <=? status) && (status <? 300).

(** What a caller of [api] gets for an inbound response, and the browser
    state after the interceptors ran: the promise is fulfilled with the
    response or rejected with the error. *)
Definition receive (r : Response) (b : Browser) : (Response + AxiosError) * Browser :=
  if validateStatus (status r)
  then (inl (response_fulfilled r), b)
  else
    let error := mkError (Some r) in
    (inr error, response_rejected error b).
End Api.

(** ** EnrollmentsController *)

(** The segment [:courseId] of the route.  No pipe parses it: the service
    gets the segment as it is, and the database reads it as an integer when
    the first query binds it. *)
Inductive RouteParam : Type :=
| Numeric (n : Z)
| NotNumeric (raw : string).

Module EnrollmentsController.
(** [@Post('course/:courseId') @UseGuards(JwtAuthGuard) enroll(req, courseId)].
    For a segment that is not a number the first query of the service is
    rejected by the database. *)
Definition enroll (now : Z) (req : Request ()) (courseId : RouteParam) : M Enrollment.t :=
  req_user ← JwtAuthGuard.canActivate now (bearer req);
  match courseId with
  | Numeric courseId => EnrollmentsService.enroll (ReqUser.id req_user) courseId
  | NotNumeric _ => throw (QueryFailedError "invalid input syntax for type integer")
  end.
End EnrollmentsController.

(** ** The client: routing, logout and the login page *)

Module App.
(** [!!localStorage.getItem('token')]: an absent entry and an empty string
    are falsy. *)
Definition isLoggedIn (b : Api.Browser) : bool :=
  match Api.localStorage b !! "token" with
  | Some token => negb (bool_decide (token = ""))
  | None => false
  end.

(** What a route renders: a redirection or the element it wraps. *)
Inductive Element (A : Type) : Type :=
| Navigate (to : string)
| Children (children : A).
Arguments Navigate {A} to.
Arguments Children {A} children.

Definition ProtectedRoute {A : Type} (children : A) (b : Api.Browser) : Element A :=
  if negb (isLoggedIn b) then Navigate "/login" else Children children.
End App.

Module Header.
(** [navigate] moves the location to the given path. *)
Definition handleLogout (b : Api.Browser) : Api.Browser :=
  let storage := delete "token" (Api.localStorage b) in
  let storage := delete "user" storage in
  Api.mkBrowser storage "/login".
End Header.

Module LoginPage.
(** The component state the handler writes. *)
Record State : Type := mkState {
  error : string;
  loading : bool;
}.

(** [response.data] of a fulfilled login request. *)
Record Data : Type := mkData {
  access_token : string;
  user : JsObj;
}.

(** What [await api.post('/auth/login', ...)] gives the handler: the data of
    the response, or an error whose [err.response?.data?.message] is the
    given value ([None] when a link of the chain is undefined). *)
Inductive Outcome : Type :=
| Fulfilled (data : Data)
| Rejected (message : option string).

Section LoginPage.
(** [JSON.stringify] is a parameter. *)
Variable JSON_stringify : JsObj → string.

(** [handleSubmit], from the outcome of the request on; [b] is the browser
    as the interceptors of [api] left it. *)
Definition handleSubmit (outcome : Outcome) (b : Api.Browser) (s : State)
    : Api.Browser * State :=
  let s := mkState "" (loading s) in
  let s := mkState (error s) true in
  let '(b, s) :=
    match outcome with
    | Fulfilled data =>
      let storage := <["token" := access_token data]> (Api.localStorage b) in
      let storage := <["user" := JSON_stringify (user data)]> storage in
      if decide (js_get (user data) "role" = JStr "admin")
      then (Api.mkBrowser storage "/admin-dashboard", s)
      else (Api.mkBrowser storage "/student-dashboard", s)
    | Rejected message =>
      (b, mkState (js_or message "Login failed") (loading s))
    end in
  (b, mkState (error s) false).
End LoginPage.
End LoginPage.

(** ** Store invariants *)

(** The [unique] constraint of [User.email]. *)
Definition unique_emails (db : Db) : Prop :=
  NoDup (User.email <$> users db).

(** Referential integrity of [Enrollment.course]. *)
Definition enrollments_fk (db : Db) : Prop :=
  ∀ e, e ∈ enrollments db → ∃ c, c ∈ courses db ∧ Course.id c = Enrollment.course e.

(** Ids come from the sequence: they are pairwise distinct and below the next
    value of the sequence. *)
Definition user_ids_wf (db : Db) : Prop :=
  NoDup (User.id <$> users db) ∧ ∀ u, u ∈ users db → User.id u < user_seq db.


(** No student is enrolled twice in the same course. *)
Definition no_double_enrollment (db : Db) : Prop :=
  NoDup ((λ e, (Enrollment.student e, Enrollment.course e)) <$> enrollments db).

(** ** Reading the store *)

(** The row a lookup by email returns: the first one in the table. *)
Definition user_by_email (db : Db) (email : string) : option User.t :=
  find (λ u, bool_decide (User.email u = email)) (users db).

(** The row a lookup by the id [id] returns. *)
Definition user_by_id (db : Db) (id : JsVal) : option User.t :=
  find (λ u, bool_decide (JNum (User.id u) = id)) (users db).

(** ** Views and claim sets *)

(** The principal view [{id, name, email, role}] of an entity. *)
Definition view_of (u : User.t) : JsObj :=
  <["id" := JNum (User.id u)]>
  (<["name" := JStr (User.name u)]>
  (<["email" := JStr (User.email u)]>
  (<["role" := JStr (User.role u)]> ∅))).

(** The claim set [{email, sub, role}] of an entity. *)
Definition claims_of (u : User.t) : JsObj :=
  <["email" := JStr (User.email u)]>
  (<["sub" := JNum (User.id u)]>
  (<["role" := JStr (User.role u)]> ∅)).

(** The response [login] builds for an entity without its password. *)
Definition response_of (jwtService : JwtService.t) (now : Z) (u : User.t) : LoginResponse :=
  mkLoginResponse (JwtService.sign jwtService now (claims_of u)) (view_of u).

(** The entity registration persists for a request: the next id of the
    sequence, the hash of the submitted password, the role defaulted. *)
Definition registered `{Bcrypt} (salt : string) (dto : RegisterDto.t) (db : Db) : User.t :=
  User.mk (user_seq db) (RegisterDto.name dto) (RegisterDto.email dto)
          (bcrypt_hash (RegisterDto.password dto) 10 salt)
          (js_or (RegisterDto.role dto) "student").


(** The authenticated context [{id, email, role, name}] of an entity. *)
Definition context_of (u : User.t) : ReqUser.t :=
  ReqUser.mk (User.id u) (User.email u) (User.role u) (User.name u).

(** The enrollments pairing a student with a course, and course lookups. *)
Definition enrollment_of (db : Db) (studentId courseId : Z) : option Enrollment.t :=
  find (λ e, bool_decide (Enrollment.student e = studentId)
             && bool_decide (Enrollment.course e = courseId)) (enrollments db).

Definition course_by_id (db : Db) (courseId : Z) : option Course.t :=
  find (λ c, bool_decide (Course.id c = courseId)) (courses db).

(** The error of every failed login. *)
Definition invalid_credentials : HttpException :=
  UnauthorizedException "Invalid credentials".

(** A token the gate accepts at time [now]. *)
Definition token_valid (now : Z) (tok : Token) : Prop :=
  tok_key tok = JwtStrategy.secretOrKey ∧ ∀ e, tok_exp tok = Some e → now < e.

(** ** A concrete instance to run the services on

    A stand-in for bcrypt, good enough to execute the flows: the hash keeps
    the salt in front of the reversed data, and comparison looks for the data
    behind the salt. *)

Module Demo.
Definition hash (data : string) (rounds : Z) (salt : string) : string :=
  "$2b$" +:+ salt +:+ "$" +:+ String.rev data.

Definition compare (data encrypted : string) : bool :=
  String.prefix (data +:+ "$") (String.rev encrypted).

Definition bcrypt : Bcrypt := Build_Bcrypt hash compare.

Definition jwtService : JwtService.t := JwtService.mk "abc123" (Some 3600).

Definition ann : User.t :=
  User.mk 1 "Ann" "ann@example.com" (hash "hunter2" 10 "s1") "admin".
Definition bob : User.t :=
  User.mk 2 "Bob" "bob@example.com" (hash "letmein" 10 "s2") "student".

Definition math : Course.t := Course.mk 1 "Math 101" "Numbers" None None 1.

Definition db : Db :=
  mkDb [ann; bob] 3 [math] 2 [Enrollment.mk 1 2 1] 2.

(** The token [jwtService] signs for [u] at time [iat]. *)
Definition token_of (u : User.t) (iat : Z) : Token :=
  JwtService.sign jwtService iat
    (<["email" := JStr (User.email u)]>
    (<["sub" := JNum (User.id u)]>
    (<["role" := JStr (User.role u)]> ∅))).

(** Requests. *)
Definition dup_dto : RegisterDto.t :=
  RegisterDto.mk "Eve" "ann@example.com" "secret" None.
Definition new_dto : RegisterDto.t :=
  RegisterDto.mk "Cid" "cid@example.com" "pass123" None.
Definition new_admin_dto : RegisterDto.t :=
  RegisterDto.mk "Dan" "dan@example.com" "pass456" (Some "admin").
Definition ann_login : AuthPayloadDto.t :=
  AuthPayloadDto.mk "ann@example.com" "hunter2".
Definition ann_wrong : AuthPayloadDto.t :=
  AuthPayloadDto.mk "ann@example.com" "hunter3".
Definition zed_login : AuthPayloadDto.t :=
  AuthPayloadDto.mk "zed@example.com" "hunter2".

(** Tokens: issued to Ann and to Bob at time 100 (they expire at 3700), and
    a token with Ann's claims signed with another key. *)
Definition ann_token : Token := token_of ann 100.
Definition bob_token : Token := token_of bob 100.
Definition forged_token : Token :=
  mkToken (tok_payload ann_token) 100 (Some 3700) "not-the-server-key".

Definition course_body : CourseBody.t :=
  CourseBody.mk None (Some "Logic 101") (Some "Proofs")
    (Some "https://example.com/v.mp4") None.

(** The browser of a logged-in student, and two responses to its requests. *)
Definition browser : Api.Browser :=
  Api.mkBrowser
    (<["token" := "eyJhbGc"]>
     (<["user" := "{id:2,name:Bob,email:bob@example.com,role:student}"]>
     (<["theme" := "dark"]> ∅)))
    "/student-dashboard".

Definition unauthorized_response : Api.Response :=
  Api.mkResponse 401 "{statusCode:401,message:Unauthorized}"
    (Api.mkConfig "get" "/courses" (Some "Bearer eyJhbGc")).

Definition forbidden_response : Api.Response :=
  Api.mkResponse 403 "{statusCode:403,message:Only admins can create courses}"
    (Api.mkConfig "post" "/courses" (Some "Bearer eyJhbGc")).

(** A token service that signs with another key than the strategy verifies
    with. *)
Definition other_jwtService : JwtService.t := JwtService.mk "s3cret" (Some 3600).

(** A serializer for the login page. *)
Definition stringify (o : JsObj) : string :=
  match o !! "email" with
  | Some (JStr email) => "{email:" +:+ email +:+ "}"
  | _ => "{}"
  end.

Definition login_data : LoginPage.Data :=
  LoginPage.mkData "eyJhbGc" (view_of bob).

(** A course body that carries the id of the stored course [math]. *)
Definition overwrite_body : CourseBody.t :=
  CourseBody.mk (Some 1) (Some "Hijacked") None None None.
End Demo.

(** * Properties *)

(** ** Running the monad *)

Lemma bind_ok {A B : Type} (m : M A) (f : A → M B) (db db' : Db) (a : A) :
  m db = (Ok a, db') → (m ≫= f) db = f a db'.
Proof. intros Hm. unfold mbind, M_bind. by rewrite Hm. Qed.

Lemma bind_throw {A B : Type} (m : M A) (f : A → M B) (db db' : Db) (e : HttpException) :
  m db = (Throw e, db') → (m ≫= f) db = (Throw e, db').
Proof. intros Hm. unfold mbind, M_bind. by rewrite Hm. Qed.

(** ** Lookups in a table *)

Lemma find_is_Some {A : Type} (p : A → bool) (l : list A) (x : A) :
  x ∈ l → p x = true → is_Some (find p l).
Proof.
  intros Hin Hp. destruct (find p l) as [y|] eqn:Hfind; [by eexists|].
  apply list_elem_of_In in Hin.
  pose proof (find_none p l Hfind x Hin) as Hnone. congruence.
Qed.

Lemma find_Some_elem {A : Type} (p : A → bool) (l : list A) (x : A) :
  find p l = Some x → x ∈ l ∧ p x = true.
Proof.
  intros Hfind. apply find_some in Hfind as [Hin Hp]. split; [|done].
  by apply list_elem_of_In.
Qed.



Lemma existsb_find_None {A : Type} (p : A → bool) (l : list A) :
  find p l = None → existsb p l = false.
Proof.
  induction l as [|x l IH]; simpl; [done|].
  destruct (p x); [done|]. intros Hf. by apply IH.
Qed.

Lemma user_by_email_elem (db : Db) (email : string) (u : User.t) :
  user_by_email db email = Some u → u ∈ users db ∧ User.email u = email.
Proof.
  intros Hfind. apply find_Some_elem in Hfind as [Hin Hp].
  split; [done|]. by apply bool_decide_eq_true_1 in Hp.
Qed.

Lemma user_by_email_taken (db : Db) (u : User.t) :
  u ∈ users db → is_Some (user_by_email db (User.email u)).
Proof.
  intros Hin. apply (find_is_Some _ _ u Hin). by apply bool_decide_eq_true_2.
Qed.


(** Under the uniqueness constraint, the row found for the email of a stored
    row is that row. *)
Lemma user_by_email_unique (db : Db) (u : User.t) :
  unique_emails db → u ∈ users db → user_by_email db (User.email u) = Some u.
Proof.
  unfold unique_emails, user_by_email. generalize (users db) as l.
  induction l as [|v l IH]; intros Hnd Hin; [by apply elem_of_nil in Hin|].
  rewrite fmap_cons in Hnd. apply NoDup_cons in Hnd as [Hv Hnd].
  apply elem_of_cons in Hin as [->|Hin]; simpl.
  - by rewrite bool_decide_eq_true_2.
  - rewrite bool_decide_eq_false_2; [by apply IH|].
    intros Heq. apply Hv. rewrite Heq. by apply list_elem_of_fmap_2.
Qed.

(** ** Equations of the issuer *)

Lemma findByEmail_run (email : string) (db : Db) :
  UsersService.findByEmail email db = (Ok (user_by_email db email), db).
Proof. reflexivity. Qed.

Lemma findOne_run (id : JsVal) (db : Db) :
  UsersService.findOne id db = (Ok (user_by_id db id), db).
Proof. reflexivity. Qed.

Section Issuer.
Context `{Bcrypt} (jwtService : JwtService.t).

Lemma login_entity_run (now : Z) (u : User.t) (db : Db) :
  AuthService.login jwtService now (js_omit "password" (User.to_obj u)) db
  = (Ok (response_of jwtService now u), db).
Proof. reflexivity. Qed.


Lemma validateUser_absent (p : AuthPayloadDto.t) (db : Db) :
  user_by_email db (AuthPayloadDto.email p) = None →
  AuthService.validateUser p db = (Throw invalid_credentials, db).
Proof.
  intros Hfind. unfold AuthService.validateUser.
  rewrite (bind_ok _ _ db db None); [done|].
  by rewrite findByEmail_run, Hfind.
Qed.

Lemma validateUser_found (p : AuthPayloadDto.t) (db : Db) (u : User.t) :
  user_by_email db (AuthPayloadDto.email p) = Some u →
  AuthService.validateUser p db
  = if bcrypt_compare (AuthPayloadDto.password p) (User.password u)
    then (Ok (js_omit "password" (User.to_obj u)), db)
    else (Throw invalid_credentials, db).
Proof.
  intros Hfind. unfold AuthService.validateUser.
  rewrite (bind_ok _ _ db db (Some u)); [|by rewrite findByEmail_run, Hfind].
  unfold UsersService.validatePassword.
  by destruct (bcrypt_compare _ _).
Qed.

Lemma controller_login_absent (now : Z) (p : AuthPayloadDto.t) (db : Db) :
  user_by_email db (AuthPayloadDto.email p) = None →
  AuthController.login jwtService now p db = (Throw invalid_credentials, db).
Proof.
  intros Hfind. unfold AuthController.login.
  by rewrite (bind_throw _ _ db db _ (validateUser_absent p db Hfind)).
Qed.

Lemma controller_login_found (now : Z) (p : AuthPayloadDto.t) (db : Db) (u : User.t) :
  user_by_email db (AuthPayloadDto.email p) = Some u →
  AuthController.login jwtService now p db
  = if bcrypt_compare (AuthPayloadDto.password p) (User.password u)
    then (Ok (response_of jwtService now u), db)
    else (Throw invalid_credentials, db).
Proof.
  intros Hfind. unfold AuthController.login.
  pose proof (validateUser_found p db u Hfind) as Hv.
  destruct (bcrypt_compare _ _).
  - rewrite (bind_ok _ _ db db _ Hv). apply login_entity_run.
  - by rewrite (bind_throw _ _ db db _ Hv).
Qed.

Lemma register_taken (now : Z) (salt : string) (dto : RegisterDto.t) (db : Db) :
  is_Some (user_by_email db (RegisterDto.email dto)) →
  AuthService.register jwtService now salt dto db
  = (Throw (UnauthorizedException "Email already exists"), db).
Proof.
  intros [v Hv]. unfold AuthService.register.
  rewrite (bind_ok _ _ db db (Some v)); [done|].
  by rewrite findByEmail_run, Hv.
Qed.

Lemma register_fresh (now : Z) (salt : string) (dto : RegisterDto.t) (db : Db) :
  user_by_email db (RegisterDto.email dto) = None →
  AuthService.register jwtService now salt dto db
  = (Ok (response_of jwtService now (registered salt dto db)),
     with_user db (registered salt dto db)).
Proof.
  intros Hfind. unfold AuthService.register.
  rewrite (bind_ok _ _ db db None); [|by rewrite findByEmail_run, Hfind].
  erewrite bind_ok; [apply login_entity_run|].
  unfold UsersService.create, usersRepo.save; simpl.
  by rewrite (existsb_find_None _ _ Hfind).
Qed.

End Issuer.

(** ** Registration *)

Section Registration.
Context `{Bcrypt} (jwtService : JwtService.t).

(** C1 (amended): a registration request whose email is that of a registered
    principal fails with [UnauthorizedException('Email already exists')],
    status 401, and leaves the store, hence the record of that principal
    (name, email, hashed secret, role), as it was. *)
Theorem register_duplicate_email_rejected
    (now : Z) (salt : string) (dto : RegisterDto.t) (db : Db) (u : User.t) :
  u ∈ users db →
  User.email u = RegisterDto.email dto →
  ∃ e db',
    AuthService.register jwtService now salt dto db = (Throw e, db')
    ∧ e = UnauthorizedException "Email already exists"
    ∧ getStatus e = 401
    ∧ db' = db
    ∧ u ∈ users db'.
Proof.
  intros Hin Hemail. eexists _, _. split.
  - apply register_taken. rewrite <- Hemail. by apply user_by_email_taken.
  - by repeat split.
Qed.


End Registration.

(** C1, as stated, fails: [ann@example.com] is registered, and a second
    registration with that email is answered with status 401, not with a
    Conflict (409). *)
Lemma register_duplicate_email_not_conflict :
  Demo.ann ∈ users Demo.db
  ∧ User.email Demo.ann = RegisterDto.email Demo.dup_dto
  ∧ (AuthService.register (H:=Demo.bcrypt) Demo.jwtService 100 "s3" Demo.dup_dto Demo.db).1
    = Throw (UnauthorizedException "Email already exists")
  ∧ ¬ ∃ e, (AuthService.register (H:=Demo.bcrypt) Demo.jwtService 100 "s3"
              Demo.dup_dto Demo.db).1 = Throw e
           ∧ getStatus e = 409.
Proof.
  split; [by constructor|]. split; [done|].
  assert ((AuthService.register (H:=Demo.bcrypt) Demo.jwtService 100 "s3"
             Demo.dup_dto Demo.db).1
          = Throw (UnauthorizedException "Email already exists")) as Hrun
    by (vm_compute; reflexivity).
  split; [exact Hrun|].
  intros (e & He & Hstatus). rewrite Hrun in He.
  injection He as <-. simpl in Hstatus. lia.
Qed.

Lemma register_duplicate_email_rejected_witness :
  Demo.ann ∈ users Demo.db
  ∧ User.email Demo.ann = RegisterDto.email Demo.dup_dto
  ∧ ∃ e db',
      AuthService.register (H:=Demo.bcrypt) Demo.jwtService 100 "s3" Demo.dup_dto Demo.db
      = (Throw e, db')
      ∧ e = UnauthorizedException "Email already exists"
      ∧ getStatus e = 401
      ∧ db' = Demo.db
      ∧ Demo.ann ∈ users db'.
Proof.
  assert (Demo.ann ∈ users Demo.db) as Hin by constructor.
  split; [exact Hin|]. split; [reflexivity|].
  exact (register_duplicate_email_rejected (H:=Demo.bcrypt) Demo.jwtService 100 "s3"
           Demo.dup_dto Demo.db Demo.ann Hin eq_refl).
Defined.


(** ** Login *)

Section Login.
Context `{Bcrypt} (jwtService : JwtService.t).

(** C2: a login attempt fails with the same
    [UnauthorizedException('Invalid credentials')] whether no principal has
    the submitted email or the submitted password does not match the stored
    hash; every failing login produces exactly this error and leaves the
    store alone, so two failing runs produce equal error outputs. *)
Theorem login_failure_uniform (now : Z) (p : AuthPayloadDto.t) (db : Db) :
  (user_by_email db (AuthPayloadDto.email p) = None →
     AuthController.login jwtService now p db = (Throw invalid_credentials, db))
  ∧ (∀ u, user_by_email db (AuthPayloadDto.email p) = Some u →
       bcrypt_compare (AuthPayloadDto.password p) (User.password u) = false →
       AuthController.login jwtService now p db = (Throw invalid_credentials, db))
  ∧ (∀ e db', AuthController.login jwtService now p db = (Throw e, db') →
       e = UnauthorizedException "Invalid credentials" ∧ getStatus e = 401)
  ∧ (∀ now' p' db' e e',
       (AuthController.login jwtService now p db).1 = Throw e →
       (AuthController.login jwtService now' p' db').1 = Throw e' →
       e = e').
Proof.
  assert (∀ now p db e, (AuthController.login jwtService now p db).1 = Throw e →
            e = invalid_credentials) as Hany.
  { clear. intros now p db e Hrun.
    destruct (user_by_email db (AuthPayloadDto.email p)) as [u|] eqn:Hfind.
    - rewrite (controller_login_found jwtService now p db u Hfind) in Hrun.
      destruct (bcrypt_compare _ _); simpl in Hrun; by simplify_eq.
    - rewrite (controller_login_absent jwtService now p db Hfind) in Hrun.
      simpl in Hrun. by simplify_eq. }
  split; [|split; [|split]].
  - apply controller_login_absent.
  - intros u Hu Hcmp.
    by rewrite (controller_login_found jwtService now p db u Hu), Hcmp.
  - intros e db' Hrun. rewrite (Hany now p db e); [done|]. by rewrite Hrun.
  - intros now' p' db' e e' Hrun Hrun'.
    by rewrite (Hany _ _ _ _ Hrun), (Hany _ _ _ _ Hrun').
Qed.

(** C3: for a stored principal [u] and a login request with the email of [u]
    and a password that matches the stored hash, login succeeds; the token is
    signed with the key of the service, the subject [sub] of its decoded
    claim set is the id of [u], and the principal view is
    [{id, name, email, role}] of [u]. *)
Theorem login_token_subject (now : Z) (p : AuthPayloadDto.t) (db : Db) (u : User.t) :
  unique_emails db →
  u ∈ users db →
  User.email u = AuthPayloadDto.email p →
  bcrypt_compare (AuthPayloadDto.password p) (User.password u) = true →
  ∃ resp,
    AuthController.login jwtService now p db = (Ok resp, db)
    ∧ tok_key (access_token resp) = JwtService.secret jwtService
    ∧ js_get (jwt_decode (access_token resp)) "sub" = JNum (User.id u)
    ∧ user resp
      = <["id" := JNum (User.id u)]>
        (<["name" := JStr (User.name u)]>
        (<["email" := JStr (User.email u)]>
        (<["role" := JStr (User.role u)]> ∅))).
Proof.
  intros Huniq Hin Hemail Hcmp.
  pose proof (user_by_email_unique db u Huniq Hin) as Hfind.
  rewrite Hemail in Hfind.
  eexists. rewrite (controller_login_found jwtService now p db u Hfind), Hcmp.
  by repeat split.
Qed.


End Login.

Lemma login_failure_uniform_witness :
  user_by_email Demo.db (AuthPayloadDto.email Demo.zed_login) = None
  ∧ user_by_email Demo.db (AuthPayloadDto.email Demo.ann_wrong) = Some Demo.ann
  ∧ Demo.compare (AuthPayloadDto.password Demo.ann_wrong) (User.password Demo.ann) = false
  ∧ AuthController.login (H:=Demo.bcrypt) Demo.jwtService 100 Demo.zed_login Demo.db
    = (Throw (UnauthorizedException "Invalid credentials"), Demo.db)
  ∧ AuthController.login (H:=Demo.bcrypt) Demo.jwtService 200 Demo.ann_wrong Demo.db
    = (Throw (UnauthorizedException "Invalid credentials"), Demo.db).
Proof.
  assert (user_by_email Demo.db (AuthPayloadDto.email Demo.zed_login) = None) as Hzed
    by (vm_compute; reflexivity).
  assert (user_by_email Demo.db (AuthPayloadDto.email Demo.ann_wrong) = Some Demo.ann) as Hann
    by (vm_compute; reflexivity).
  assert (Demo.compare (AuthPayloadDto.password Demo.ann_wrong) (User.password Demo.ann)
          = false) as Hcmp by (vm_compute; reflexivity).
  split; [exact Hzed|]. split; [exact Hann|]. split; [exact Hcmp|]. split.
  - exact (proj1 (login_failure_uniform (H:=Demo.bcrypt) Demo.jwtService 100
                    Demo.zed_login Demo.db) Hzed).
  - exact (proj1 (proj2 (login_failure_uniform (H:=Demo.bcrypt) Demo.jwtService 200
                           Demo.ann_wrong Demo.db)) Demo.ann Hann Hcmp).
Defined.

Lemma login_token_subject_witness :
  unique_emails Demo.db
  ∧ Demo.ann ∈ users Demo.db
  ∧ User.email Demo.ann = AuthPayloadDto.email Demo.ann_login
  ∧ Demo.compare (AuthPayloadDto.password Demo.ann_login) (User.password Demo.ann) = true
  ∧ ∃ resp,
      AuthController.login (H:=Demo.bcrypt) Demo.jwtService 100 Demo.ann_login Demo.db
      = (Ok resp, Demo.db)
      ∧ tok_key (access_token resp) = "abc123"
      ∧ js_get (jwt_decode (access_token resp)) "sub" = JNum 1
      ∧ user resp
        = <["id" := JNum 1]>
          (<["name" := JStr "Ann"]>
          (<["email" := JStr "ann@example.com"]>
          (<["role" := JStr "admin"]> ∅))).
Proof.
  assert (unique_emails Demo.db) as Huniq.
  { unfold unique_emails. apply (bool_decide_unpack _). by vm_compute. }
  assert (Demo.ann ∈ users Demo.db) as Hin by constructor.
  assert (Demo.compare (AuthPayloadDto.password Demo.ann_login) (User.password Demo.ann)
          = true) as Hcmp by (vm_compute; reflexivity).
  split; [exact Huniq|]. split; [exact Hin|]. split; [reflexivity|]. split; [exact Hcmp|].
  exact (login_token_subject (H:=Demo.bcrypt) Demo.jwtService 100 Demo.ann_login Demo.db
           Demo.ann Huniq Hin eq_refl Hcmp).
Defined.



(** ** The access gate *)

Lemma jwt_verify_valid (now : Z) (tok : Token) :
  token_valid now tok →
  jwt_verify JwtStrategy.secretOrKey JwtStrategy.ignoreExpiration now tok
  = Some (tok_payload tok).
Proof.
  intros [Hkey Hexp]. unfold jwt_verify, jwt_expired.
  rewrite decide_True by done. simpl.
  destruct (tok_exp tok) as [e|]; [|done].
  rewrite bool_decide_eq_false_2; [done|]. specialize (Hexp e eq_refl). lia.
Qed.

Lemma jwt_verify_wrong_key (key : string) (ignoreExpiration : bool) (now : Z) (tok : Token) :
  tok_key tok ≠ key → jwt_verify key ignoreExpiration now tok = None.
Proof. intros Hkey. unfold jwt_verify. by rewrite decide_False. Qed.

Lemma jwt_verify_expired (key : string) (now e : Z) (tok : Token) :
  tok_exp tok = Some e → e ≤ now → jwt_verify key false now tok = None.
Proof.
  intros Hexp Hle. unfold jwt_verify, jwt_expired. rewrite Hexp.
  case_decide; [|done]. simpl. by rewrite bool_decide_eq_true_2.
Qed.

Lemma validate_run (payload : JsObj) (db : Db) :
  JwtStrategy.validate payload db
  = match user_by_id db (js_get payload "sub") with
    | Some u => (Ok (context_of u), db)
    | None => (Throw UnauthorizedException_default, db)
    end.
Proof.
  unfold JwtStrategy.validate.
  rewrite (bind_ok _ _ db db _ (findOne_run _ db)).
  by destruct (user_by_id db _).
Qed.

Lemma canActivate_valid (now : Z) (tok : Token) (db : Db) :
  token_valid now tok →
  JwtAuthGuard.canActivate now (Some (Jwt tok)) db
  = match user_by_id db (js_get (tok_payload tok) "sub") with
    | Some u => (Ok (context_of u), db)
    | None => (Throw UnauthorizedException_default, db)
    end.
Proof.
  intros Hvalid. unfold JwtAuthGuard.canActivate.
  rewrite (jwt_verify_valid now tok Hvalid). apply validate_run.
Qed.

Lemma canActivate_invalid (now : Z) (tok : Token) (db : Db) :
  jwt_verify JwtStrategy.secretOrKey JwtStrategy.ignoreExpiration now tok = None →
  JwtAuthGuard.canActivate now (Some (Jwt tok)) db
  = (Throw UnauthorizedException_default, db).
Proof. intros Hverify. unfold JwtAuthGuard.canActivate. by rewrite Hverify. Qed.

(** The gate only reads the store. *)
Lemma canActivate_readonly (now : Z) (cred : option Credential) (db : Db) :
  (JwtAuthGuard.canActivate now cred db).2 = db.
Proof.
  unfold JwtAuthGuard.canActivate.
  destruct cred as [[raw|tok]|]; [done| |done].
  destruct (jwt_verify _ _ _ _) as [payload|]; [|done].
  rewrite validate_run. by destruct (user_by_id db _).
Qed.

(** C4: a well-formed bearer token that was signed with a key other than the
    key of the server, or whose expiry time has passed, is rejected by the
    gate with [UnauthorizedException] (401), and so is the request to the
    protected course creation that carries it. *)
Theorem gate_rejects_foreign_or_expired
    (now : Z) (tok : Token) (course : CourseBody.t) (db : Db) :
  tok_key tok ≠ JwtStrategy.secretOrKey ∨ (∃ e, tok_exp tok = Some e ∧ e ≤ now) →
  ∃ err,
    JwtAuthGuard.canActivate now (Some (Jwt tok)) db = (Throw err, db)
    ∧ CoursesController.create now (mkRequest (Some (Jwt tok)) course) db = (Throw err, db)
    ∧ err = UnauthorizedException "Unauthorized"
    ∧ getStatus err = 401.
Proof.
  intros Hbad.
  assert (jwt_verify JwtStrategy.secretOrKey JwtStrategy.ignoreExpiration now tok = None)
    as Hverify.
  { destruct Hbad as [Hkey | (e & Hexp & Hle)].
    - by apply jwt_verify_wrong_key.
    - by apply (jwt_verify_expired _ now e). }
  pose proof (canActivate_invalid now tok db Hverify) as Hgate.
  eexists. split; [exact Hgate|]. split; [|done].
  unfold CoursesController.create. by rewrite (bind_throw _ _ db db _ Hgate).
Qed.

(** C5: for a validly signed, unexpired token the gate fetches the principal
    whose id is the subject of the claim set; without such a principal it
    fails with [UnauthorizedException]; otherwise the context
    [{id, email, role, name}] is that of the fetched record, whatever role
    the claim set carries: tokens with the same subject yield the same
    context. *)
Theorem gate_refetches_principal (now : Z) (tok : Token) (db : Db) :
  token_valid now tok →
  (user_by_id db (js_get (tok_payload tok) "sub") = None →
     JwtAuthGuard.canActivate now (Some (Jwt tok)) db
     = (Throw (UnauthorizedException "Unauthorized"), db))
  ∧ (∀ u, user_by_id db (js_get (tok_payload tok) "sub") = Some u →
       JNum (User.id u) = js_get (tok_payload tok) "sub"
       ∧ u ∈ users db
       ∧ JwtAuthGuard.canActivate now (Some (Jwt tok)) db
         = (Ok (ReqUser.mk (User.id u) (User.email u) (User.role u) (User.name u)), db))
  ∧ (∀ tok', token_valid now tok' →
       js_get (tok_payload tok') "sub" = js_get (tok_payload tok) "sub" →
       JwtAuthGuard.canActivate now (Some (Jwt tok')) db
       = JwtAuthGuard.canActivate now (Some (Jwt tok)) db).
Proof.
  intros Hvalid. split; [|split].
  - intros Hnone. by rewrite (canActivate_valid now tok db Hvalid), Hnone.
  - intros u Hsome. destruct (find_Some_elem _ _ _ Hsome) as [Hin Hid].
    apply bool_decide_eq_true_1 in Hid.
    by rewrite (canActivate_valid now tok db Hvalid), Hsome.
  - intros tok' Hvalid' Hsub.
    by rewrite (canActivate_valid now tok db Hvalid),
               (canActivate_valid now tok' db Hvalid'), Hsub.
Qed.


Lemma gate_rejects_foreign_or_expired_witness :
  tok_key Demo.forged_token ≠ JwtStrategy.secretOrKey
  ∧ (∃ e, tok_exp Demo.ann_token = Some e ∧ e ≤ 5000)
  ∧ JwtAuthGuard.canActivate 200 (Some (Jwt Demo.forged_token)) Demo.db
    = (Throw (UnauthorizedException "Unauthorized"), Demo.db)
  ∧ JwtAuthGuard.canActivate 5000 (Some (Jwt Demo.ann_token)) Demo.db
    = (Throw (UnauthorizedException "Unauthorized"), Demo.db).
Proof.
  assert (tok_key Demo.forged_token ≠ JwtStrategy.secretOrKey) as Hkey by done.
  assert (∃ e, tok_exp Demo.ann_token = Some e ∧ e ≤ 5000) as Hexp.
  { exists 3700. split; [reflexivity|lia]. }
  split; [exact Hkey|]. split; [exact Hexp|]. split.
  - destruct (gate_rejects_foreign_or_expired 200 Demo.forged_token Demo.course_body
                Demo.db (or_introl Hkey)) as (err & Hgate & _ & -> & _).
    exact Hgate.
  - destruct (gate_rejects_foreign_or_expired 5000 Demo.ann_token Demo.course_body
                Demo.db (or_intror Hexp)) as (err & Hgate & _ & -> & _).
    exact Hgate.
Defined.

Lemma gate_refetches_principal_witness :
  token_valid 200 Demo.bob_token
  ∧ user_by_id Demo.db (js_get (tok_payload Demo.bob_token) "sub") = Some Demo.bob
  ∧ JwtAuthGuard.canActivate 200 (Some (Jwt Demo.bob_token)) Demo.db
    = (Ok (ReqUser.mk 2 "bob@example.com" "student" "Bob"), Demo.db).
Proof.
  assert (token_valid 200 Demo.bob_token) as Hvalid.
  { split; [reflexivity|]. intros e [= <-]. lia. }
  assert (user_by_id Demo.db (js_get (tok_payload Demo.bob_token) "sub") = Some Demo.bob)
    as Hbob by (vm_compute; reflexivity).
  split; [exact Hvalid|]. split; [exact Hbob|].
  exact (proj2 (proj2 (proj1 (proj2 (gate_refetches_principal 200 Demo.bob_token Demo.db
                                        Hvalid)) Demo.bob Hbob))).
Defined.



(** ** Enrollment *)

Lemma enroll_run (studentId courseId : Z) (db : Db) :
  EnrollmentsService.enroll studentId courseId db
  = if int4 studentId && int4 courseId then
      match enrollment_of db studentId courseId with
      | Some _ => (Throw (ConflictException "Already enrolled"), db)
      | None =>
        match course_by_id db courseId with
        | None => (Throw (NotFoundException "Course not found"), db)
        | Some _ => enrollmentsRepo.save studentId courseId db
        end
      end
    else (Throw out_of_range, db).
Proof.
  unfold EnrollmentsService.enroll, enrollmentsRepo.findOneByPair, coursesRepo.findOneById.
  destruct (int4 studentId) eqn:Hs, (int4 courseId) eqn:Hc; simpl; try done.
  rewrite (bind_ok _ _ db db (enrollment_of db studentId courseId)); [|done].
  destruct (enrollment_of db studentId courseId) as [e|]; [done|].
  rewrite (bind_ok _ _ db db (course_by_id db courseId)); [|done].
  by destruct (course_by_id db courseId).
Qed.

Lemma references_stored_intro (db : Db) (u : User.t) (c : Course.t) :
  u ∈ users db → c ∈ courses db →
  enrollmentsRepo.references_stored (User.id u) (Course.id c) db = true.
Proof.
  intros Hu Hc. unfold enrollmentsRepo.references_stored.
  apply andb_true_intro. split; apply existsb_exists.
  - exists u. split; [by apply list_elem_of_In|]. by apply bool_decide_eq_true_2.
  - exists c. split; [by apply list_elem_of_In|]. by apply bool_decide_eq_true_2.
Qed.

(** What [enrollmentsRepo.save] leaves: the tables as they were, or the
    enrollment appended. *)
Lemma save_enrollment_cases (studentId courseId : Z) (db : Db) :
  (∃ err db', enrollmentsRepo.save studentId courseId db = (Throw err, db')
              ∧ getStatus err = 500
              ∧ users db' = users db ∧ courses db' = courses db
              ∧ enrollments db' = enrollments db)
  ∨ enrollmentsRepo.save studentId courseId db
    = (Ok (Enrollment.mk (enrollment_seq db) studentId courseId),
       with_enrollment db (Enrollment.mk (enrollment_seq db) studentId courseId)).
Proof.
  unfold enrollmentsRepo.save.
  destruct (enrollmentsRepo.references_stored studentId courseId db); [by right|].
  left. by eexists _, _.
Qed.

(** With referential integrity, a pairing exists only for a stored course. *)
Lemma fk_enrollment_course (db : Db) (studentId courseId : Z) :
  enrollments_fk db →
  course_by_id db courseId = None →
  enrollment_of db studentId courseId = None.
Proof.
  intros Hfk Hcourse.
  destruct (enrollment_of db studentId courseId) as [e|] eqn:Hfind; [|done].
  apply find_Some_elem in Hfind as [Hin Hp].
  apply andb_prop in Hp as [_ Hc]. apply bool_decide_eq_true_1 in Hc.
  destruct (Hfk e Hin) as (c & Hcin & Hcid).
  destruct (find_is_Some (λ c, bool_decide (Course.id c = courseId)) (courses db) c Hcin)
    as [c' Hc']; [apply bool_decide_eq_true_2; congruence|].
  unfold course_by_id in Hcourse. congruence.
Qed.

Lemma save_enrollment_ok (studentId courseId : Z) (db : Db) :
  (∃ u, u ∈ users db ∧ User.id u = studentId) →
  is_Some (course_by_id db courseId) →
  enrollmentsRepo.save studentId courseId db
  = (Ok (Enrollment.mk (enrollment_seq db) studentId courseId),
     with_enrollment db (Enrollment.mk (enrollment_seq db) studentId courseId)).
Proof.
  intros (u & Hu & <-) [c Hc]. apply find_Some_elem in Hc as [Hc Hid].
  apply bool_decide_eq_true_1 in Hid as <-.
  unfold enrollmentsRepo.save. by rewrite (references_stored_intro db u c Hu Hc).
Qed.

(** C10 (amended): for a student who is a stored principal and ids within
    the range of the integer id columns, enrolling fails with
    [ConflictException] when an enrollment pairing student and course
    exists, and otherwise with [NotFoundException] when the course does not
    exist (in a store with referential integrity a pairing exists only for a
    stored course, so there a missing course always yields
    [NotFoundException]); both failures leave the store as it was; when
    neither applies, and only then, a new enrollment of that student in that
    course is appended to the enrollments, and nothing else changes. *)
Theorem enroll_outcomes (studentId courseId : Z) (db : Db) :
  int4 studentId = true →
  int4 courseId = true →
  (∃ u, u ∈ users db ∧ User.id u = studentId) →
  (is_Some (enrollment_of db studentId courseId) →
     EnrollmentsService.enroll studentId courseId db
     = (Throw (ConflictException "Already enrolled"), db))
  ∧ (enrollment_of db studentId courseId = None ∨ enrollments_fk db →
     course_by_id db courseId = None →
     EnrollmentsService.enroll studentId courseId db
     = (Throw (NotFoundException "Course not found"), db))
  ∧ (enrollment_of db studentId courseId = None →
     is_Some (course_by_id db courseId) →
     ∃ e db',
       EnrollmentsService.enroll studentId courseId db = (Ok e, db')
       ∧ Enrollment.student e = studentId
       ∧ Enrollment.course e = courseId
       ∧ enrollments db' = (enrollments db ++ [e])%list
       ∧ e ∈ enrollments db'
       ∧ users db' = users db
       ∧ courses db' = courses db)
  ∧ (∀ e db', EnrollmentsService.enroll studentId courseId db = (Ok e, db') →
       enrollment_of db studentId courseId = None
       ∧ is_Some (course_by_id db courseId)
       ∧ enrollments db' = (enrollments db ++ [e])%list)
  ∧ (∀ err db', EnrollmentsService.enroll studentId courseId db = (Throw err, db') →
       db' = db ∧ (getStatus err = 409 ∨ getStatus err = 404)).
Proof.
  intros Hs Hc Hstudent. rewrite enroll_run, Hs, Hc. simpl.
  split; [|split; [|split; [|split]]].
  - by intros [e ->].
  - intros Hnone Hcourse.
    assert (enrollment_of db studentId courseId = None) as ->.
    { destruct Hnone as [Hnone | Hfk]; [done|]. by apply fk_enrollment_course. }
    by rewrite Hcourse.
  - intros -> Hcourse. rewrite (save_enrollment_ok _ _ db Hstudent Hcourse).
    destruct Hcourse as [c ->]. eexists _, _. split; [reflexivity|].
    split; [done|]. split; [done|]. split; [done|]. split; [|done].
    simpl. apply elem_of_app. right. by apply list_elem_of_singleton.
  - intros e db'.
    destruct (enrollment_of db studentId courseId); [done|].
    destruct (course_by_id db courseId) as [c|] eqn:Hcourse; [|done].
    rewrite (save_enrollment_ok _ _ db Hstudent); [|by rewrite Hcourse].
    intros [= <- <-]. by repeat split.
  - intros err db'.
    destruct (enrollment_of db studentId courseId).
    { intros [= <- <-]. split; [done|]. by left. }
    destruct (course_by_id db courseId) as [c|] eqn:Hcourse.
    + rewrite (save_enrollment_ok _ _ db Hstudent); [done|by rewrite Hcourse].
    + intros [= <- <-]. split; [done|]. by right.
Qed.

(** C10, as stated, fails: no course has the id 2147483648 and Bob is not
    enrolled in such a course, yet the request is not answered with
    [NotFoundException]: the id does not fit the integer column, the first
    query is rejected by the database, and the error surfaces with status
    500. *)
Lemma enroll_out_of_range_not_found :
  (∃ u, u ∈ users Demo.db ∧ User.id u = 2)
  ∧ course_by_id Demo.db 2147483648 = None
  ∧ enrollment_of Demo.db 2 2147483648 = None
  ∧ EnrollmentsService.enroll 2 2147483648 Demo.db
    = (Throw (QueryFailedError "value out of range for type integer"), Demo.db)
  ∧ getStatus (QueryFailedError "value out of range for type integer") = 500
  ∧ ∀ m, (EnrollmentsService.enroll 2 2147483648 Demo.db).1 ≠ Throw (NotFoundException m).
Proof.
  split.
  { exists Demo.bob. split; [|done]. apply elem_of_cons. right. by apply list_elem_of_singleton. }
  split; [done|]. split; [done|].
  assert (EnrollmentsService.enroll 2 2147483648 Demo.db
          = (Throw (QueryFailedError "value out of range for type integer"), Demo.db))
    as Hrun by (vm_compute; reflexivity).
  split; [exact Hrun|]. split; [done|]. intros m. by rewrite Hrun.
Qed.

Lemma enroll_outcomes_witness :
  int4 2 = true
  ∧ int4 1 = true
  ∧ int4 7 = true
  ∧ (∃ u, u ∈ users Demo.db ∧ User.id u = 2)
  ∧ (∃ u, u ∈ users Demo.db ∧ User.id u = 1)
  ∧ is_Some (enrollment_of Demo.db 2 1)
  ∧ enrollment_of Demo.db 2 7 = None
  ∧ course_by_id Demo.db 7 = None
  ∧ enrollment_of Demo.db 1 1 = None
  ∧ is_Some (course_by_id Demo.db 1)
  ∧ EnrollmentsService.enroll 2 1 Demo.db
    = (Throw (ConflictException "Already enrolled"), Demo.db)
  ∧ EnrollmentsService.enroll 2 7 Demo.db
    = (Throw (NotFoundException "Course not found"), Demo.db)
  ∧ ∃ e db',
      EnrollmentsService.enroll 1 1 Demo.db = (Ok e, db')
      ∧ Enrollment.student e = 1
      ∧ Enrollment.course e = 1
      ∧ enrollments db' = (enrollments Demo.db ++ [e])%list
      ∧ e ∈ enrollments db'
      ∧ users db' = users Demo.db
      ∧ courses db' = courses Demo.db.
Proof.
  assert (∃ u, u ∈ users Demo.db ∧ User.id u = 2) as Hbob.
  { exists Demo.bob. split; [|done]. apply elem_of_cons. right. by apply list_elem_of_singleton. }
  assert (∃ u, u ∈ users Demo.db ∧ User.id u = 1) as Hann.
  { exists Demo.ann. split; [|done]. by apply elem_of_cons; left. }
  assert (is_Some (enrollment_of Demo.db 2 1)) as Hdup by (by eexists).
  assert (enrollment_of Demo.db 2 7 = None) as Hnone7 by reflexivity.
  assert (course_by_id Demo.db 7 = None) as Hmissing by reflexivity.
  assert (enrollment_of Demo.db 1 1 = None) as Hnone1 by reflexivity.
  assert (is_Some (course_by_id Demo.db 1)) as Hcourse by (by eexists).
  split; [reflexivity|]. split; [reflexivity|]. split; [reflexivity|].
  split; [exact Hbob|]. split; [exact Hann|].
  split; [exact Hdup|]. split; [exact Hnone7|]. split; [exact Hmissing|].
  split; [exact Hnone1|]. split; [exact Hcourse|]. split; [|split].
  - exact (proj1 (enroll_outcomes 2 1 Demo.db eq_refl eq_refl Hbob) Hdup).
  - exact (proj1 (proj2 (enroll_outcomes 2 7 Demo.db eq_refl eq_refl Hbob))
             (or_introl Hnone7) Hmissing).
  - exact (proj1 (proj2 (proj2 (enroll_outcomes 1 1 Demo.db eq_refl eq_refl Hann)))
             Hnone1 Hcourse).
Defined.

(** ** The client *)

(** C8: whatever request produced it, an inbound response with status 401
    makes the response interceptor remove the entries ['token'] and ['user']
    from the storage, leaving the other entries, and navigate to ['/login'];
    the promise is rejected with the error; a response with any other
    status leaves the storage and the location unchanged. *)
Theorem unauthorized_response_logs_out (r : Api.Response) (b : Api.Browser) :
  (Api.status r = 401 →
     Api.receive r b
     = (inr (Api.mkError (Some r)),
        Api.mkBrowser (delete "user" (delete "token" (Api.localStorage b))) "/login")
     ∧ Api.localStorage (Api.receive r b).2 !! "token" = None
     ∧ Api.localStorage (Api.receive r b).2 !! "user" = None
     ∧ (∀ k, k ≠ "token" → k ≠ "user" →
          Api.localStorage (Api.receive r b).2 !! k = Api.localStorage b !! k)
     ∧ Api.location_href (Api.receive r b).2 = "/login")
  ∧ (Api.status r ≠ 401 → (Api.receive r b).2 = b).
Proof.
  split.
  - intros Hstatus.
    assert (Api.receive r b
            = (inr (Api.mkError (Some r)),
               Api.mkBrowser (delete "user" (delete "token" (Api.localStorage b))) "/login"))
      as Hrun.
    { unfold Api.receive, Api.response_rejected, Api.validateStatus. rewrite Hstatus.
      simpl. rewrite Hstatus. by rewrite decide_True. }
    rewrite Hrun. simpl. split; [done|]. split; [|split; [|split]].
    + rewrite lookup_delete_ne by done. apply lookup_delete_eq.
    + apply lookup_delete_eq.
    + intros k Htoken Huser. by rewrite !lookup_delete_ne.
    + done.
  - intros Hstatus. unfold Api.receive, Api.response_rejected.
    destruct (Api.validateStatus (Api.status r)); [done|]. simpl.
    rewrite decide_False; [done|]. intros [= Heq]. done.
Qed.

Lemma unauthorized_response_logs_out_witness :
  Api.status Demo.unauthorized_response = 401
  ∧ Api.status Demo.forbidden_response ≠ 401
  ∧ (Api.receive Demo.unauthorized_response Demo.browser).2
    = Api.mkBrowser (<["theme" := "dark"]> ∅) "/login"
  ∧ (Api.receive Demo.forbidden_response Demo.browser).2 = Demo.browser.
Proof.
  assert (Api.status Demo.forbidden_response ≠ 401) as Hne by done.
  split; [reflexivity|]. split; [exact Hne|]. split.
  - rewrite (proj1 (proj1 (unauthorized_response_logs_out Demo.unauthorized_response
                             Demo.browser) eq_refl)).
    vm_compute. reflexivity.
  - exact (proj2 (unauthorized_response_logs_out Demo.forbidden_response Demo.browser) Hne).
Defined.

(** ** Invariants of the store *)

Section Invariants.
Context `{Bcrypt} (jwtService : JwtService.t).

(** X2: registration keeps the emails of the table of users pairwise
    distinct, whatever its outcome. *)
Lemma register_unique_emails (now : Z) (salt : string) (dto : RegisterDto.t) (db : Db) :
  unique_emails db →
  unique_emails (AuthService.register jwtService now salt dto db).2.
Proof.
  intros Huniq.
  destruct (user_by_email db (RegisterDto.email dto)) as [v|] eqn:Hfind.
  - rewrite (register_taken jwtService now salt dto db); [done|by eexists].
  - rewrite (register_fresh jwtService now salt dto db Hfind).
    unfold unique_emails in *. simpl. rewrite fmap_app. simpl.
    apply NoDup_app. split; [done|]. split; [|apply NoDup_singleton].
    intros email Hin Hnew. apply list_elem_of_singleton in Hnew as ->.
    apply list_elem_of_fmap in Hin as (u & Hemail & Hu).
    assert (bool_decide (User.email u = RegisterDto.email dto) = false) as Hnone.
    { apply (find_none _ _ Hfind u). by apply list_elem_of_In. }
    by apply bool_decide_eq_false_1 in Hnone.
Qed.


End Invariants.

(** X20: enrolling keeps the referential integrity of enrollments: every
    enrollment in the store points at a stored course, whatever the outcome. *)
Lemma enroll_fk (studentId courseId : Z) (db : Db) :
  enrollments_fk db →
  enrollments_fk (EnrollmentsService.enroll studentId courseId db).2.
Proof.
  intros Hfk. rewrite enroll_run.
  destruct (int4 studentId && int4 courseId); [|done].
  destruct (enrollment_of db studentId courseId); [done|].
  destruct (course_by_id db courseId) as [c|] eqn:Hcourse; [|done].
  apply find_Some_elem in Hcourse as [Hcin Hcid].
  apply bool_decide_eq_true_1 in Hcid.
  destruct (save_enrollment_cases studentId courseId db)
    as [(err & db' & -> & _ & _ & Hcourses & Henrollments) | ->].
  - intros e Hin. simpl in *. rewrite Henrollments in Hin. rewrite Hcourses. by apply Hfk.
  - intros e Hin. simpl in *. apply elem_of_app in Hin as [Hin | Hin].
    + by apply Hfk.
    + apply list_elem_of_singleton in Hin as ->. by exists c.
Qed.

(** ** Runs on the concrete instance *)

Example register_admin_role :
  (User.role <$> last (users (AuthService.register (H:=Demo.bcrypt) Demo.jwtService 100 "s3"
                                Demo.new_admin_dto Demo.db).2)) = Some "admin".
Proof. vm_compute. reflexivity. Qed.

Example register_empty_role :
  (User.role <$> last (users (AuthService.register (H:=Demo.bcrypt) Demo.jwtService 100 "s3"
                                (RegisterDto.mk "Cid" "cid@example.com" "pass123" (Some ""))
                                Demo.db).2)) = Some "student".
Proof. vm_compute. reflexivity. Qed.

(** Bob was a student when his token was issued and is an admin now: the
    gate reports the role of the store, not that of the claim set. *)
Example gate_uses_current_role :
  js_get (tok_payload Demo.bob_token) "role" = JStr "student"
  ∧ (JwtAuthGuard.canActivate 200 (Some (Jwt Demo.bob_token))
       (mkDb [Demo.ann; User.mk 2 "Bob" "bob@example.com" (User.password Demo.bob) "admin"]
             3 [] 1 [] 1)).1
    = Ok (ReqUser.mk 2 "bob@example.com" "admin" "Bob").
Proof. split; vm_compute; reflexivity. Qed.

(** A request without bearer token, or with one that does not parse, is
    rejected by the gate. *)
Example gate_rejects_missing_token :
  (JwtAuthGuard.canActivate 200 None Demo.db).1 = Throw (UnauthorizedException "Unauthorized")
  ∧ (JwtAuthGuard.canActivate 200 (Some (Malformed "abc")) Demo.db).1
    = Throw (UnauthorizedException "Unauthorized").
Proof. split; reflexivity. Qed.

(** The request interceptor attaches the stored token. *)
Example request_interceptor_attaches_token :
  Api.headers_Authorization
    (Api.request_interceptor (Api.mkConfig "get" "/courses" None) Demo.browser)
  = Some "Bearer eyJhbGc".
Proof. vm_compute. reflexivity. Qed.

(** * Further properties of the flows *)

(** ** Ids and lookups by id *)

Lemma user_by_id_unique (db : Db) (u : User.t) :
  NoDup (User.id <$> users db) → u ∈ users db →
  user_by_id db (JNum (User.id u)) = Some u.
Proof.
  unfold user_by_id. generalize (users db) as l.
  induction l as [|v l IH]; intros Hnd Hin; [by apply elem_of_nil in Hin|].
  rewrite fmap_cons in Hnd. apply NoDup_cons in Hnd as [Hv Hnd].
  apply elem_of_cons in Hin as [->|Hin]; simpl.
  - by rewrite bool_decide_eq_true_2.
  - rewrite bool_decide_eq_false_2; [by apply IH|].
    intros [= Heq]. apply Hv. rewrite Heq. by apply list_elem_of_fmap_2.
Qed.


Lemma sign_valid (jwtService : JwtService.t) (now now' : Z) (payload : JsObj) :
  JwtService.secret jwtService = JwtStrategy.secretOrKey →
  (∀ d, JwtService.expiresIn jwtService = Some d → now' < now + d) →
  token_valid now' (JwtService.sign jwtService now payload).
Proof.
  intros Hkey Hexp. split; [done|]. simpl. intros e He.
  destruct (JwtService.expiresIn jwtService) as [d|]; [|done].
  injection He as <-. by apply Hexp.
Qed.

Section Sessions.
Context `{Bcrypt} (jwtService : JwtService.t).

(** X5: a token that login issues with the key of the strategy is accepted
    by the gate, on the store login ran on, at every time before
    [iat + expiresIn] (at every time when no expiry is configured) and
    resolves to the principal that logged in; from [iat + expiresIn] on it is
    rejected with 401. *)
Theorem issued_token_lifetime (now : Z) (p : AuthPayloadDto.t) (db db' : Db)
    (resp : LoginResponse) :
  NoDup (User.id <$> users db) →
  JwtService.secret jwtService = JwtStrategy.secretOrKey →
  AuthController.login jwtService now p db = (Ok resp, db') →
  ∃ u, u ∈ users db
       ∧ User.email u = AuthPayloadDto.email p
       ∧ (∀ now', (∀ d, JwtService.expiresIn jwtService = Some d → now' < now + d) →
            JwtAuthGuard.canActivate now' (Some (Jwt (access_token resp))) db'
            = (Ok (ReqUser.mk (User.id u) (User.email u) (User.role u) (User.name u)), db'))
       ∧ (∀ now' d, JwtService.expiresIn jwtService = Some d → now + d ≤ now' →
            JwtAuthGuard.canActivate now' (Some (Jwt (access_token resp))) db'
            = (Throw (UnauthorizedException "Unauthorized"), db')).
Proof.
  intros Hnd Hkey Hrun.
  destruct (user_by_email db (AuthPayloadDto.email p)) as [u|] eqn:Hfind.
  2: { by rewrite (controller_login_absent jwtService now p db Hfind) in Hrun. }
  rewrite (controller_login_found jwtService now p db u Hfind) in Hrun.
  destruct (bcrypt_compare _ _); [|done]. injection Hrun as <- <-.
  destruct (user_by_email_elem db _ u Hfind) as [Hin Hemail].
  exists u. split; [done|]. split; [done|]. split.
  - intros now' Hexp.
    rewrite (canActivate_valid now' (access_token (response_of jwtService now u)) db
               (sign_valid jwtService now now' (claims_of u) Hkey Hexp)).
    change (js_get (tok_payload (access_token (response_of jwtService now u))) "sub")
      with (JNum (User.id u)).
    by rewrite (user_by_id_unique db u Hnd Hin).
  - intros now' d Hd Hle. apply canActivate_invalid.
    apply (jwt_verify_expired _ now' (now + d)); [|done].
    simpl. by rewrite Hd.
Qed.

(** X6: when the signing key of the token service is not the key the
    strategy verifies with, no token login issues ever passes the gate. *)
Theorem mismatched_secret_locks_out (now now' : Z) (p : AuthPayloadDto.t)
    (db db' db'' : Db) (resp : LoginResponse) :
  JwtService.secret jwtService ≠ JwtStrategy.secretOrKey →
  AuthController.login jwtService now p db = (Ok resp, db') →
  JwtAuthGuard.canActivate now' (Some (Jwt (access_token resp))) db''
  = (Throw (UnauthorizedException "Unauthorized"), db'').
Proof.
  intros Hkey Hrun. apply canActivate_invalid, jwt_verify_wrong_key.
  destruct (user_by_email db (AuthPayloadDto.email p)) as [u|] eqn:Hfind.
  - rewrite (controller_login_found jwtService now p db u Hfind) in Hrun.
    destruct (bcrypt_compare _ _); [|done]. by injection Hrun as <- <-.
  - by rewrite (controller_login_absent jwtService now p db Hfind) in Hrun.
Qed.

End Sessions.

(** ** What the gate admits *)

Lemma jwt_verify_Some (now : Z) (tok : Token) (payload : JsObj) :
  jwt_verify JwtStrategy.secretOrKey JwtStrategy.ignoreExpiration now tok = Some payload →
  token_valid now tok ∧ payload = tok_payload tok.
Proof.
  unfold jwt_verify, jwt_expired, token_valid. case_decide as Hkey; [|done]. simpl.
  destruct (tok_exp tok) as [e|] eqn:Hexp.
  - case_bool_decide as Hle; [done|]. intros [= <-]. split; [|done].
    split; [done|]. intros e' [= <-]. lia.
  - intros [= <-]. by split.
Qed.

(** The gate either throws its 401 or was given a valid token whose subject
    is the id of a stored principal, whose context it returns. *)
Lemma canActivate_cases (now : Z) (cred : option Credential) (db : Db) :
  JwtAuthGuard.canActivate now cred db = (Throw UnauthorizedException_default, db)
  ∨ ∃ tok u,
      cred = Some (Jwt tok)
      ∧ token_valid now tok
      ∧ user_by_id db (js_get (tok_payload tok) "sub") = Some u
      ∧ JwtAuthGuard.canActivate now cred db = (Ok (context_of u), db).
Proof.
  destruct cred as [[raw|tok]|]; [by left| |by left].
  destruct (jwt_verify JwtStrategy.secretOrKey JwtStrategy.ignoreExpiration now tok)
    as [payload|] eqn:Hverify.
  - apply jwt_verify_Some in Hverify as [Hvalid ->].
    rewrite (canActivate_valid now tok db Hvalid).
    destruct (user_by_id db _) as [u|] eqn:Hu; [|by left].
    right. by exists tok, u.
  - left. by apply canActivate_invalid.
Qed.

(** X8: the gate fails closed.  Without bearer token, or with one that does
    not parse, it throws 401; whatever it is given, it leaves the store as it
    was, its only error is [UnauthorizedException('Unauthorized')], and it
    admits a request only for a well-formed token that is signed with the
    key of the strategy, not expired, and whose subject is the id of a stored
    principal, whose fields make up the context. *)
Theorem gate_fails_closed (now : Z) (cred : option Credential) (db : Db) :
  (cred = None ∨ (∃ raw, cred = Some (Malformed raw)) →
     JwtAuthGuard.canActivate now cred db
     = (Throw (UnauthorizedException "Unauthorized"), db))
  ∧ (JwtAuthGuard.canActivate now cred db).2 = db
  ∧ (∀ e, (JwtAuthGuard.canActivate now cred db).1 = Throw e →
       e = UnauthorizedException "Unauthorized" ∧ getStatus e = 401)
  ∧ (∀ ctx, (JwtAuthGuard.canActivate now cred db).1 = Ok ctx →
       ∃ tok u,
         cred = Some (Jwt tok)
         ∧ tok_key tok = "abc123"
         ∧ (∀ e, tok_exp tok = Some e → now < e)
         ∧ u ∈ users db
         ∧ JNum (User.id u) = js_get (tok_payload tok) "sub"
         ∧ ctx = ReqUser.mk (User.id u) (User.email u) (User.role u) (User.name u)).
Proof.
  split; [|split; [|split]].
  - by intros [-> | [raw ->]].
  - destruct (canActivate_cases now cred db) as [-> | (tok & u & _ & _ & _ & ->)]; done.
  - intros e.
    destruct (canActivate_cases now cred db) as [-> | (tok & u & _ & _ & _ & ->)];
      simpl; [|done].
    by intros [= <-].
  - intros ctx.
    destruct (canActivate_cases now cred db) as [-> | (tok & u & -> & [Hkey Hexp] & Hu & ->)];
      simpl; [done|].
    intros [= <-]. apply find_Some_elem in Hu as [Hin Hid].
    apply bool_decide_eq_true_1 in Hid. by exists tok, u.
Qed.

Lemma gate_fails_closed_witness :
  (JwtAuthGuard.canActivate 200 (Some (Jwt Demo.bob_token)) Demo.db).1
  = Ok (ReqUser.mk 2 "bob@example.com" "student" "Bob")
  ∧ ∃ tok u,
      Some (Jwt Demo.bob_token) = Some (Jwt tok)
      ∧ tok_key tok = "abc123"
      ∧ (∀ e, tok_exp tok = Some e → 200 < e)
      ∧ u ∈ users Demo.db
      ∧ JNum (User.id u) = js_get (tok_payload tok) "sub"
      ∧ ReqUser.mk 2 "bob@example.com" "student" "Bob"
        = ReqUser.mk (User.id u) (User.email u) (User.role u) (User.name u).
Proof.
  assert ((JwtAuthGuard.canActivate 200 (Some (Jwt Demo.bob_token)) Demo.db).1
          = Ok (ReqUser.mk 2 "bob@example.com" "student" "Bob")) as Hrun
    by (vm_compute; reflexivity).
  split; [exact Hrun|].
  exact (proj2 (proj2 (proj2 (gate_fails_closed 200 (Some (Jwt Demo.bob_token)) Demo.db)))
           _ Hrun).
Defined.

(** ** Course creation and enrollment through the controllers *)

Lemma controller_create_run (now : Z) (req : Request CourseBody.t) (db : Db) :
  CoursesController.create now req db
  = match JwtAuthGuard.canActivate now (bearer req) db with
    | (Ok ctx, _) =>
      if decide (ReqUser.role ctx ≠ "admin")
      then (Throw (ForbiddenException "Only admins can create courses"), db)
      else coursesRepo.save (body req) (ReqUser.id ctx) db
    | (Throw e, _) => (Throw e, db)
    end.
Proof.
  unfold CoursesController.create.
  destruct (canActivate_cases now (bearer req) db) as [Hrun | (tok & u & _ & _ & _ & Hrun)].
  - by rewrite (bind_throw _ _ db db _ Hrun), Hrun.
  - rewrite (bind_ok _ _ db db _ Hrun), Hrun. by case_decide.
Qed.

Lemma controller_enroll_run (now : Z) (req : Request ()) (courseId : RouteParam) (db : Db) :
  EnrollmentsController.enroll now req courseId db
  = match JwtAuthGuard.canActivate now (bearer req) db with
    | (Ok ctx, _) =>
      match courseId with
      | Numeric n => EnrollmentsService.enroll (ReqUser.id ctx) n db
      | NotNumeric _ =>
        (Throw (QueryFailedError "invalid input syntax for type integer"), db)
      end
    | (Throw e, _) => (Throw e, db)
    end.
Proof.
  unfold EnrollmentsController.enroll.
  destruct (canActivate_cases now (bearer req) db) as [Hrun | (tok & u & _ & _ & _ & Hrun)].
  - by rewrite (bind_throw _ _ db db _ Hrun), Hrun.
  - rewrite (bind_ok _ _ db db _ Hrun), Hrun. by destruct courseId.
Qed.

Lemma replace_elem (c old : Course.t) (rows : list Course.t) :
  old ∈ rows → Course.id old = Course.id c → c ∈ coursesRepo.replace c rows.
Proof.
  intros Hin Hid. unfold coursesRepo.replace.
  apply list_elem_of_fmap. exists old. by rewrite bool_decide_eq_true_2.
Qed.

(** What [coursesRepo.save] leaves: users and enrollments as they were; on
    an error the courses as well; on success the saved row among the
    courses, with the given instructor, who is a stored principal. *)
Lemma save_course_cases (course : CourseBody.t) (instructor : Z) (db : Db) :
  users (coursesRepo.save course instructor db).2 = users db
  ∧ enrollments (coursesRepo.save course instructor db).2 = enrollments db
  ∧ (∀ e, (coursesRepo.save course instructor db).1 = Throw e →
       getStatus e = 500 ∧ courses (coursesRepo.save course instructor db).2 = courses db)
  ∧ (∀ c, (coursesRepo.save course instructor db).1 = Ok c →
       c ∈ courses (coursesRepo.save course instructor db).2
       ∧ Course.instructor c = instructor
       ∧ coursesRepo.instructor_stored instructor db = true).
Proof.
  assert (∀ (e : HttpException) (db' : Db),
            getStatus e = 500 → users db' = users db → courses db' = courses db →
            enrollments db' = enrollments db →
            users (Throw (A:=Course.t) e, db').2 = users db
            ∧ enrollments (Throw (A:=Course.t) e, db').2 = enrollments db
            ∧ (∀ e', (Throw (A:=Course.t) e, db').1 = Throw e' →
                 getStatus e' = 500 ∧ courses (Throw (A:=Course.t) e, db').2 = courses db)
            ∧ (∀ c, (Throw (A:=Course.t) e, db').1 = Ok c →
                 c ∈ courses (Throw (A:=Course.t) e, db').2
                 ∧ Course.instructor c = instructor
                 ∧ coursesRepo.instructor_stored instructor db = true)) as Hthrow.
  { intros e db' Hstatus Husers Hcourses Henr. simpl.
    split; [done|]. split; [done|]. split; [by intros e' [= <-]|by intros c [=]]. }
  unfold coursesRepo.save, coursesRepo.inserted.
  destruct (CourseBody.id course) as [id|].
  - destruct (int4 id); simpl; [|by apply Hthrow].
    destruct (coursesRepo.instructor_stored instructor db) eqn:Hfk; simpl;
      [|by apply Hthrow].
    destruct (find _ (courses db)) as [old|] eqn:Hold.
    + apply find_Some_elem in Hold as [Hin Hid]. apply bool_decide_eq_true_1 in Hid.
      simpl. split; [done|]. split; [done|]. split; [by intros e [=]|].
      intros c [= <-]. split; [|done]. by apply (replace_elem _ old).
    + destruct (CourseBody.title course) as [title|]; [|by apply Hthrow].
      destruct (CourseBody.description course) as [description|]; [|by apply Hthrow].
      simpl. split; [done|]. split; [done|]. split; [by intros e [=]|].
      intros c [= <-]. split; [|done].
      apply elem_of_app. right. by apply list_elem_of_singleton.
  - destruct (CourseBody.title course) as [title|]; [|by apply Hthrow].
    destruct (CourseBody.description course) as [description|]; [|by apply Hthrow].
    destruct (existsb _ (courses db)); [by apply Hthrow|].
    destruct (coursesRepo.instructor_stored instructor db) eqn:Hfk; simpl;
      [|by apply Hthrow].
    split; [done|]. split; [done|]. split; [by intros e [=]|].
    intros c [= <-]. split; [|done].
    apply elem_of_app. right. by apply list_elem_of_singleton.
Qed.


(** X9: a course-creation request changes the courses only when it carries
    a valid token of a stored principal with role ['admin']: the saved
    course is then among the courses, with that principal as instructor.
    Every failure is a 401, a 403 or a database error (500) and leaves users,
    courses and enrollments as they were; users are never touched. *)
Theorem create_course_outcomes (now : Z) (req : Request CourseBody.t) (db : Db) :
  (∀ e db', CoursesController.create now req db = (Throw e, db') →
     users db' = users db
     ∧ courses db' = courses db
     ∧ enrollments db' = enrollments db
     ∧ (getStatus e = 401 ∨ getStatus e = 403 ∨ getStatus e = 500))
  ∧ (∀ c db', CoursesController.create now req db = (Ok c, db') →
       c ∈ courses db'
       ∧ users db' = users db
       ∧ ∃ tok u,
           bearer req = Some (Jwt tok)
           ∧ token_valid now tok
           ∧ user_by_id db (js_get (tok_payload tok) "sub") = Some u
           ∧ u ∈ users db
           ∧ User.role u = "admin"
           ∧ Course.instructor c = User.id u).
Proof.
  rewrite controller_create_run.
  destruct (canActivate_cases now (bearer req) db)
    as [-> | (tok & u & Hcred & Hvalid & Hu & ->)].
  { split; [|done]. intros e db' [= <- <-]. repeat split; try done. by left. }
  simpl. case_decide as Hrole.
  { split; [|done]. intros e db' [= <- <-]. repeat split; try done. right. by left. }
  destruct (save_course_cases (body req) (User.id u) db) as (Husers & Henr & Herr & Hok).
  destruct (coursesRepo.save (body req) (User.id u) db) as [[c|e] db1]; simpl in *.
  - split; [done|]. intros c' db' [= <- <-].
    destruct (Hok c eq_refl) as (Hin & Hinstr & _).
    split; [done|]. split; [done|]. exists tok, u.
    split; [done|]. split; [done|]. split; [done|].
    split; [by apply (find_Some_elem _ _ _ Hu)|]. split; [|done].
    by destruct (decide (User.role u = "admin")).
  - split; [|done]. intros e' db' [= <- <-].
    destruct (Herr e eq_refl) as [Hstatus Hcourses].
    repeat split; try done. right. by right.
Qed.

Lemma create_course_outcomes_witness :
  ∃ c db',
    CoursesController.create 200 (mkRequest (Some (Jwt Demo.ann_token)) Demo.overwrite_body)
      Demo.db = (Ok c, db')
    ∧ c ∈ courses db'
    ∧ users db' = users Demo.db
    ∧ ∃ tok u,
        Some (Jwt Demo.ann_token) = Some (Jwt tok)
        ∧ token_valid 200 tok
        ∧ user_by_id Demo.db (js_get (tok_payload tok) "sub") = Some u
        ∧ u ∈ users Demo.db
        ∧ User.role u = "admin"
        ∧ Course.instructor c = User.id u.
Proof.
  pose (c := Course.mk 1 "Hijacked" "Numbers" None None 1).
  pose (db' := mkDb (users Demo.db) 3 [c] 2 (enrollments Demo.db) 2).
  assert (CoursesController.create 200
            (mkRequest (Some (Jwt Demo.ann_token)) Demo.overwrite_body) Demo.db
          = (Ok c, db')) as Hrun by (vm_compute; reflexivity).
  exists c, db'. split; [exact Hrun|].
  exact (proj2 (create_course_outcomes 200
                  (mkRequest (Some (Jwt Demo.ann_token)) Demo.overwrite_body) Demo.db)
           c db' Hrun).
Defined.

(** X10: an enrollment saved through the controller is appended to the
    enrollments, is for the course the numeric route segment names, and
    belongs to the stored principal the valid bearer token resolves to,
    never to an id the client chose; a request the gate rejects is answered
    401 and nothing is written; every failure is a 401, 409, 404 or a
    database error (500) and leaves users, courses and enrollments as they
    were; a segment that is not a number never yields an enrollment. *)
Theorem controller_enroll_outcomes
    (now : Z) (req : Request ()) (courseId : RouteParam) (db : Db) :
  (∀ e, (JwtAuthGuard.canActivate now (bearer req) db).1 = Throw e →
     EnrollmentsController.enroll now req courseId db = (Throw e, db) ∧ getStatus e = 401)
  ∧ (∀ err db', EnrollmentsController.enroll now req courseId db = (Throw err, db') →
       users db' = users db
       ∧ courses db' = courses db
       ∧ enrollments db' = enrollments db
       ∧ (getStatus err = 401 ∨ getStatus err = 409 ∨ getStatus err = 404
          ∨ getStatus err = 500))
  ∧ (∀ en db', EnrollmentsController.enroll now req courseId db = (Ok en, db') →
       enrollments db' = (enrollments db ++ [en])%list
       ∧ courseId = Numeric (Enrollment.course en)
       ∧ ∃ tok u,
           bearer req = Some (Jwt tok)
           ∧ token_valid now tok
           ∧ user_by_id db (js_get (tok_payload tok) "sub") = Some u
           ∧ Enrollment.student en = User.id u).
Proof.
  rewrite controller_enroll_run.
  destruct (canActivate_cases now (bearer req) db)
    as [-> | (tok & u & Hcred & Hvalid & Hu & ->)]; simpl.
  { split; [|split; [|done]].
    - by intros e [= <-].
    - intros err db' [= <- <-]. repeat split; try done. by left. }
  split; [done|].
  destruct courseId as [n|raw].
  2: { split; [|done]. intros err db' [= <- <-]. repeat split; try done.
       right. right. by right. }
  rewrite enroll_run.
  destruct (int4 (User.id u) && int4 n).
  2: { split; [|done]. intros err db' [= <- <-]. repeat split; try done.
       right. right. by right. }
  destruct (enrollment_of db (User.id u) n).
  { split; [|done]. intros err db' [= <- <-]. repeat split; try done. right. by left. }
  destruct (course_by_id db n).
  2: { split; [|done]. intros err db' [= <- <-]. repeat split; try done.
       right. right. by left. }
  destruct (save_enrollment_cases (User.id u) n db)
    as [(err & db1 & -> & Hstatus & Husers & Hcourses & Henr) | ->].
  - split; [|done]. intros err' db' [= <- <-]. repeat split; try done.
    right. right. by right.
  - split; [done|]. intros en db' [= <- <-]. split; [done|]. split; [done|].
    by exists tok, u.
Qed.

Lemma controller_enroll_outcomes_witness :
  ∃ en db',
    EnrollmentsController.enroll 200 (mkRequest (Some (Jwt Demo.ann_token)) ()) (Numeric 1)
      Demo.db = (Ok en, db')
    ∧ enrollments db' = (enrollments Demo.db ++ [en])%list
    ∧ Numeric 1 = Numeric (Enrollment.course en)
    ∧ ∃ tok u,
        Some (Jwt Demo.ann_token) = Some (Jwt tok)
        ∧ token_valid 200 tok
        ∧ user_by_id Demo.db (js_get (tok_payload tok) "sub") = Some u
        ∧ Enrollment.student en = User.id u.
Proof.
  pose (en := Enrollment.mk 2 1 1).
  assert (EnrollmentsController.enroll 200 (mkRequest (Some (Jwt Demo.ann_token)) ())
            (Numeric 1) Demo.db = (Ok en, with_enrollment Demo.db en)) as Hrun
    by (vm_compute; reflexivity).
  exists en, (with_enrollment Demo.db en). split; [exact Hrun|].
  exact (proj2 (proj2 (controller_enroll_outcomes 200
                         (mkRequest (Some (Jwt Demo.ann_token)) ()) (Numeric 1) Demo.db))
           en _ Hrun).
Defined.

Lemma enrollment_of_elem (db : Db) (studentId courseId : Z) (en : Enrollment.t) :
  en ∈ enrollments db →
  Enrollment.student en = studentId → Enrollment.course en = courseId →
  is_Some (enrollment_of db studentId courseId).
Proof.
  intros Hin Hs Hc. apply (find_is_Some _ _ en Hin).
  by rewrite !bool_decide_eq_true_2.
Qed.

Lemma enrollment_of_None (db : Db) (studentId courseId : Z) (en : Enrollment.t) :
  enrollment_of db studentId courseId = None → en ∈ enrollments db →
  (Enrollment.student en, Enrollment.course en) ≠ (studentId, courseId).
Proof.
  intros Hnone Hin [= Hs Hc].
  destruct (enrollment_of_elem db studentId courseId en Hin Hs Hc) as [x Hx]. congruence.
Qed.

(** X11: enrolling is not repeatable: right after a successful enrollment
    the same request fails with [ConflictException('Already enrolled')] and
    adds nothing. *)
Theorem enroll_twice_conflict (studentId courseId : Z) (db db' : Db) (en : Enrollment.t) :
  EnrollmentsService.enroll studentId courseId db = (Ok en, db') →
  EnrollmentsService.enroll studentId courseId db'
  = (Throw (ConflictException "Already enrolled"), db').
Proof.
  rewrite enroll_run.
  destruct (int4 studentId && int4 courseId) eqn:Hrange; [|done].
  destruct (enrollment_of db studentId courseId); [done|].
  destruct (course_by_id db courseId); [|done].
  destruct (save_enrollment_cases studentId courseId db)
    as [(err & db1 & -> & _) | ->]; [done|].
  intros [= <- <-]. rewrite enroll_run, Hrange.
  destruct (enrollment_of_elem
              (with_enrollment db (Enrollment.mk (enrollment_seq db) studentId courseId))
              studentId courseId (Enrollment.mk (enrollment_seq db) studentId courseId))
    as [x ->]; [|done..].
  simpl. apply elem_of_app. right. by apply list_elem_of_singleton.
Qed.

Lemma enroll_twice_conflict_witness :
  EnrollmentsService.enroll 1 1 Demo.db
  = (Ok (Enrollment.mk 2 1 1), with_enrollment Demo.db (Enrollment.mk 2 1 1))
  ∧ EnrollmentsService.enroll 1 1 (with_enrollment Demo.db (Enrollment.mk 2 1 1))
    = (Throw (ConflictException "Already enrolled"),
       with_enrollment Demo.db (Enrollment.mk 2 1 1)).
Proof.
  assert (EnrollmentsService.enroll 1 1 Demo.db
          = (Ok (Enrollment.mk 2 1 1), with_enrollment Demo.db (Enrollment.mk 2 1 1)))
    as Hrun by reflexivity.
  split; [exact Hrun|].
  exact (enroll_twice_conflict 1 1 Demo.db _ _ Hrun).
Defined.

(** X12: enrolling never pairs a student twice with the same course: a
    store without double enrollments stays so, whatever the outcome. *)
Theorem enroll_no_double (studentId courseId : Z) (db : Db) :
  no_double_enrollment db →
  no_double_enrollment (EnrollmentsService.enroll studentId courseId db).2.
Proof.
  intros Hnd. rewrite enroll_run.
  destruct (int4 studentId && int4 courseId); [|done].
  destruct (enrollment_of db studentId courseId) eqn:Hnone; [done|].
  destruct (course_by_id db courseId); [|done].
  destruct (save_enrollment_cases studentId courseId db)
    as [(err & db1 & -> & _ & _ & _ & Henr) | ->].
  { unfold no_double_enrollment in *. simpl. by rewrite Henr. }
  unfold no_double_enrollment in *. simpl. rewrite fmap_app. simpl.
  apply NoDup_app. split; [done|]. split; [|apply NoDup_singleton].
  intros pair Hin Hnew. apply list_elem_of_singleton in Hnew as ->.
  apply list_elem_of_fmap in Hin as (en & Hpair & Hen).
  by apply (enrollment_of_None db studentId courseId en Hnone Hen).
Qed.

Lemma demo_no_double : no_double_enrollment Demo.db.
Proof. unfold no_double_enrollment. apply (bool_decide_unpack _). by vm_compute. Qed.

Lemma enroll_no_double_witness :
  no_double_enrollment Demo.db
  ∧ no_double_enrollment (EnrollmentsService.enroll 1 1 Demo.db).2.
Proof.
  split; [exact demo_no_double|].
  exact (enroll_no_double 1 1 Demo.db demo_no_double).
Defined.

Lemma demo_fk : enrollments_fk Demo.db.
Proof.
  intros en Hin. apply list_elem_of_singleton in Hin as ->.
  exists Demo.math. split; [by constructor|done].
Qed.

Lemma enroll_fk_witness :
  enrollments_fk Demo.db ∧ enrollments_fk (EnrollmentsService.enroll 1 1 Demo.db).2.
Proof.
  split; [exact demo_fk|]. exact (enroll_fk 1 1 Demo.db demo_fk).
Defined.


Section RegistrationSession.
Context `{Bcrypt} (jwtService : JwtService.t).


End RegistrationSession.

(** ** The client *)

(** X15: the request interceptor attaches [Bearer <token>] exactly when the
    client counts as logged in, that is when the storage holds a non-empty
    token; otherwise (no entry, or an empty string) the request goes out as
    it was; method and url are never changed. *)
Theorem request_interceptor_bearer (config : Api.RequestConfig) (b : Api.Browser) :
  Api.method (Api.request_interceptor config b) = Api.method config
  ∧ Api.url (Api.request_interceptor config b) = Api.url config
  ∧ (App.isLoggedIn b = true →
     ∃ token, Api.localStorage b !! "token" = Some token
              ∧ token ≠ ""
              ∧ Api.headers_Authorization (Api.request_interceptor config b)
                = Some ("Bearer " +:+ token))
  ∧ (App.isLoggedIn b = false → Api.request_interceptor config b = config).
Proof.
  unfold Api.request_interceptor, App.isLoggedIn.
  destruct (Api.localStorage b !! "token") as [token|]; [|done].
  case_decide as Hempty; simpl.
  - subst token. by rewrite bool_decide_eq_true_2.
  - rewrite bool_decide_eq_false_2 by done. simpl.
    split; [done|]. split; [done|]. split; [|done]. intros _. by exists token.
Qed.

Lemma request_interceptor_bearer_witness :
  App.isLoggedIn Demo.browser = true
  ∧ ∃ token, Api.localStorage Demo.browser !! "token" = Some token
             ∧ token ≠ ""
             ∧ Api.headers_Authorization
                 (Api.request_interceptor (Api.mkConfig "get" "/courses" None) Demo.browser)
               = Some ("Bearer " +:+ token).
Proof.
  assert (App.isLoggedIn Demo.browser = true) as Hin by (vm_compute; reflexivity).
  split; [exact Hin|].
  exact (proj1 (proj2 (proj2 (request_interceptor_bearer
                                (Api.mkConfig "get" "/courses" None) Demo.browser))) Hin).
Defined.

(** X16: logging out through the header leaves the browser exactly as the
    response interceptor leaves it on a 401: no ['token'], no ['user'], the
    other entries kept, location ['/login'].  After it the client does not
    count as logged in, protected routes redirect to ['/login'], and
    requests go out without [Authorization] header of the interceptor. *)
Theorem logout_effect (b : Api.Browser) :
  (∀ r, Api.status r = 401 → (Api.receive r b).2 = Header.handleLogout b)
  ∧ App.isLoggedIn (Header.handleLogout b) = false
  ∧ (∀ (A : Type) (children : A),
       App.ProtectedRoute children (Header.handleLogout b) = App.Navigate "/login")
  ∧ (∀ config, Api.request_interceptor config (Header.handleLogout b) = config)
  ∧ Api.localStorage (Header.handleLogout b) !! "user" = None
  ∧ (∀ k, k ≠ "token" → k ≠ "user" →
       Api.localStorage (Header.handleLogout b) !! k = Api.localStorage b !! k)
  ∧ Api.location_href (Header.handleLogout b) = "/login".
Proof.
  assert (Api.localStorage (Header.handleLogout b) !! "token" = None) as Htoken.
  { unfold Header.handleLogout; simpl.
    rewrite lookup_delete_ne by done. apply lookup_delete_eq. }
  assert (App.isLoggedIn (Header.handleLogout b) = false) as Hout.
  { unfold App.isLoggedIn. by rewrite Htoken. }
  split; [|split; [|split; [|split; [|split; [|split]]]]].
  - intros r Hstatus. unfold Api.receive, Api.response_rejected, Api.validateStatus.
    rewrite Hstatus. simpl. rewrite Hstatus. by rewrite decide_True.
  - exact Hout.
  - intros A children. unfold App.ProtectedRoute. by rewrite Hout.
  - intros config. unfold Api.request_interceptor. by rewrite Htoken.
  - unfold Header.handleLogout; simpl. apply lookup_delete_eq.
  - intros k Ht Hu. unfold Header.handleLogout; simpl. by rewrite !lookup_delete_ne.
  - done.
Qed.

Lemma logout_effect_witness :
  Api.status Demo.unauthorized_response = 401
  ∧ (Api.receive Demo.unauthorized_response Demo.browser).2
    = Header.handleLogout Demo.browser
  ∧ Header.handleLogout Demo.browser = Api.mkBrowser (<["theme" := "dark"]> ∅) "/login".
Proof.
  split; [reflexivity|]. split.
  - exact (proj1 (logout_effect Demo.browser) Demo.unauthorized_response eq_refl).
  - vm_compute. reflexivity.
Defined.

Section LoginPageProperties.
Variable JSON_stringify : JsObj → string.

(** X17: after the login page handled a fulfilled request that carried a
    non-empty token, the client counts as logged in, protected routes render
    their element, every request goes out with [Bearer <that token>], the
    view of the principal is stored under ['user'], the other entries are
    kept, and the location is ['/admin-dashboard'] for role ['admin'] and
    ['/student-dashboard'] for every other role; error and loading flag are
    reset. *)
Theorem login_page_success
    (data : LoginPage.Data) (b : Api.Browser) (s : LoginPage.State) :
  LoginPage.access_token data ≠ "" →
  ∃ b',
    LoginPage.handleSubmit JSON_stringify (LoginPage.Fulfilled data) b s
    = (b', LoginPage.mkState "" false)
    ∧ App.isLoggedIn b' = true
    ∧ (∀ (A : Type) (children : A), App.ProtectedRoute children b' = App.Children children)
    ∧ (∀ config, Api.headers_Authorization (Api.request_interceptor config b')
                 = Some ("Bearer " +:+ LoginPage.access_token data))
    ∧ Api.localStorage b' !! "user" = Some (JSON_stringify (LoginPage.user data))
    ∧ (∀ k, k ≠ "token" → k ≠ "user" →
         Api.localStorage b' !! k = Api.localStorage b !! k)
    ∧ (js_get (LoginPage.user data) "role" = JStr "admin" →
       Api.location_href b' = "/admin-dashboard")
    ∧ (js_get (LoginPage.user data) "role" ≠ JStr "admin" →
       Api.location_href b' = "/student-dashboard").
Proof.
  intros Htoken.
  set (storage := <["user" := JSON_stringify (LoginPage.user data)]>
                    (<["token" := LoginPage.access_token data]> (Api.localStorage b))).
  assert (storage !! "token" = Some (LoginPage.access_token data)) as Hlookup.
  { unfold storage. rewrite lookup_insert_ne by done. apply lookup_insert_eq. }
  assert (∀ href, App.isLoggedIn (Api.mkBrowser storage href) = true) as Hin.
  { intros href. unfold App.isLoggedIn. simpl. rewrite Hlookup.
    by rewrite bool_decide_eq_false_2. }
  assert (∀ href,
            LoginPage.handleSubmit JSON_stringify (LoginPage.Fulfilled data) b s
            = (Api.mkBrowser storage href, LoginPage.mkState "" false) →
            ∃ b',
              LoginPage.handleSubmit JSON_stringify (LoginPage.Fulfilled data) b s
              = (b', LoginPage.mkState "" false)
              ∧ App.isLoggedIn b' = true
              ∧ (∀ (A : Type) (children : A),
                   App.ProtectedRoute children b' = App.Children children)
              ∧ (∀ config, Api.headers_Authorization (Api.request_interceptor config b')
                           = Some ("Bearer " +:+ LoginPage.access_token data))
              ∧ Api.localStorage b' !! "user" = Some (JSON_stringify (LoginPage.user data))
              ∧ (∀ k, k ≠ "token" → k ≠ "user" →
                   Api.localStorage b' !! k = Api.localStorage b !! k)
              ∧ Api.location_href b' = href) as Hcommon.
  { intros href Hrun. exists (Api.mkBrowser storage href).
    split; [exact Hrun|]. split; [apply Hin|]. split; [|split; [|split; [|split]]].
    - intros A children. unfold App.ProtectedRoute. by rewrite Hin.
    - intros config. unfold Api.request_interceptor. simpl. rewrite Hlookup.
      by rewrite decide_False.
    - simpl. unfold storage. apply lookup_insert_eq.
    - intros k Ht Hu. simpl. unfold storage. by rewrite !lookup_insert_ne.
    - done. }
  destruct (decide (js_get (LoginPage.user data) "role" = JStr "admin")) as [Hrole | Hrole].
  - destruct (Hcommon "/admin-dashboard") as (b' & Hrun & H1 & H2 & H3 & H4 & H5 & H6).
    { unfold LoginPage.handleSubmit. simpl. by rewrite decide_True. }
    exists b'. by repeat (split; [done|]).
  - destruct (Hcommon "/student-dashboard") as (b' & Hrun & H1 & H2 & H3 & H4 & H5 & H6).
    { unfold LoginPage.handleSubmit. simpl. by rewrite decide_False. }
    exists b'. by repeat (split; [done|]).
Qed.

(** X18: when the login request is answered 401, the interceptor has logged
    the client out before the page handles the error: the page leaves the
    browser as the interceptor left it (not logged in, at ['/login']), resets
    the loading flag and sets the error to the message of the response, or
    to ['Login failed'] when the message is undefined or empty.  On any
    rejected request the page itself writes nothing to the browser. *)
Theorem login_page_failure
    (r : Api.Response) (message : option string) (b : Api.Browser) (s : LoginPage.State) :
  (∀ b0, (LoginPage.handleSubmit JSON_stringify (LoginPage.Rejected message) b0 s).1 = b0)
  ∧ (Api.status r = 401 →
     ∃ b' s',
       LoginPage.handleSubmit JSON_stringify (LoginPage.Rejected message)
         (Api.receive r b).2 s = (b', s')
       ∧ App.isLoggedIn b' = false
       ∧ Api.location_href b' = "/login"
       ∧ LoginPage.loading s' = false
       ∧ (message = None ∨ message = Some "" → LoginPage.error s' = "Login failed")
       ∧ (∀ m, message = Some m → m ≠ "" → LoginPage.error s' = m)).
Proof.
  split; [done|]. intros Hstatus.
  assert ((Api.receive r b).2
          = Api.mkBrowser (delete "user" (delete "token" (Api.localStorage b))) "/login")
    as ->.
  { unfold Api.receive, Api.response_rejected, Api.validateStatus.
    rewrite Hstatus. simpl. rewrite Hstatus. by rewrite decide_True. }
  eexists _, _. split; [reflexivity|]. simpl. split; [|split; [done|split; [done|split]]].
  - unfold App.isLoggedIn. simpl.
    rewrite lookup_delete_ne by done. by rewrite lookup_delete_eq.
  - by intros [-> | ->].
  - intros m -> Hm. simpl. by rewrite decide_False.
Qed.

End LoginPageProperties.

(** ** Runs of the further properties on the concrete instance *)

Lemma demo_user_ids_wf : user_ids_wf Demo.db.
Proof.
  split.
  - apply (bool_decide_unpack _). by vm_compute.
  - intros u Hin. simpl in Hin.
    apply elem_of_cons in Hin as [-> | Hin]; [simpl; lia|].
    apply list_elem_of_singleton in Hin as ->. simpl. lia.
Qed.


Lemma demo_unique_emails : unique_emails Demo.db.
Proof. unfold unique_emails. apply (bool_decide_unpack _). by vm_compute. Qed.

Lemma register_unique_emails_witness :
  unique_emails Demo.db
  ∧ unique_emails (AuthService.register (H:=Demo.bcrypt) Demo.jwtService 100 "s3"
                     Demo.new_dto Demo.db).2.
Proof.
  split; [exact demo_unique_emails|].
  exact (register_unique_emails (H:=Demo.bcrypt) Demo.jwtService 100 "s3" Demo.new_dto
           Demo.db demo_unique_emails).
Defined.


Lemma issued_token_lifetime_witness :
  NoDup (User.id <$> users Demo.db)
  ∧ JwtService.secret Demo.jwtService = JwtStrategy.secretOrKey
  ∧ AuthController.login (H:=Demo.bcrypt) Demo.jwtService 100 Demo.ann_login Demo.db
    = (Ok (response_of Demo.jwtService 100 Demo.ann), Demo.db)
  ∧ JwtAuthGuard.canActivate 3699
      (Some (Jwt (access_token (response_of Demo.jwtService 100 Demo.ann)))) Demo.db
    = (Ok (ReqUser.mk 1 "ann@example.com" "admin" "Ann"), Demo.db)
  ∧ JwtAuthGuard.canActivate 3700
      (Some (Jwt (access_token (response_of Demo.jwtService 100 Demo.ann)))) Demo.db
    = (Throw (UnauthorizedException "Unauthorized"), Demo.db).
Proof.
  assert (AuthController.login (H:=Demo.bcrypt) Demo.jwtService 100 Demo.ann_login Demo.db
          = (Ok (response_of Demo.jwtService 100 Demo.ann), Demo.db)) as Hrun
    by (vm_compute; reflexivity).
  split; [exact (proj1 demo_user_ids_wf)|]. split; [reflexivity|]. split; [exact Hrun|].
  destruct (issued_token_lifetime (H:=Demo.bcrypt) Demo.jwtService 100 Demo.ann_login
              Demo.db Demo.db _ (proj1 demo_user_ids_wf) eq_refl Hrun)
    as (u & Hin & Hemail & Hbefore & Hafter).
  assert (u = Demo.ann) as ->.
  { simpl in Hin. apply elem_of_cons in Hin as [-> | Hin]; [done|].
    apply list_elem_of_singleton in Hin as ->. done. }
  split.
  - apply (Hbefore 3699). intros d [= <-]. lia.
  - apply (Hafter 3700 3600); [reflexivity|lia].
Defined.

Lemma mismatched_secret_locks_out_witness :
  JwtService.secret Demo.other_jwtService ≠ JwtStrategy.secretOrKey
  ∧ AuthController.login (H:=Demo.bcrypt) Demo.other_jwtService 100 Demo.ann_login Demo.db
    = (Ok (response_of Demo.other_jwtService 100 Demo.ann), Demo.db)
  ∧ JwtAuthGuard.canActivate 101
      (Some (Jwt (access_token (response_of Demo.other_jwtService 100 Demo.ann)))) Demo.db
    = (Throw (UnauthorizedException "Unauthorized"), Demo.db).
Proof.
  assert (JwtService.secret Demo.other_jwtService ≠ JwtStrategy.secretOrKey) as Hkey by done.
  assert (AuthController.login (H:=Demo.bcrypt) Demo.other_jwtService 100 Demo.ann_login
            Demo.db = (Ok (response_of Demo.other_jwtService 100 Demo.ann), Demo.db)) as Hrun
    by (vm_compute; reflexivity).
  split; [exact Hkey|]. split; [exact Hrun|].
  exact (mismatched_secret_locks_out (H:=Demo.bcrypt) Demo.other_jwtService 100 101
           Demo.ann_login Demo.db Demo.db Demo.db _ Hkey Hrun).
Defined.



Lemma login_page_success_witness :
  LoginPage.access_token Demo.login_data ≠ ""
  ∧ ∃ b',
      LoginPage.handleSubmit Demo.stringify (LoginPage.Fulfilled Demo.login_data)
        (Header.handleLogout Demo.browser) (LoginPage.mkState "Login failed" false)
      = (b', LoginPage.mkState "" false)
      ∧ App.isLoggedIn b' = true
      ∧ Api.location_href b' = "/student-dashboard".
Proof.
  assert (LoginPage.access_token Demo.login_data ≠ "") as Htoken by done.
  split; [exact Htoken|].
  destruct (login_page_success Demo.stringify Demo.login_data
              (Header.handleLogout Demo.browser) (LoginPage.mkState "Login failed" false)
              Htoken) as (b' & Hrun & Hin & _ & _ & _ & _ & _ & Hstudent).
  exists b'. split; [exact Hrun|]. split; [exact Hin|].
  apply Hstudent. vm_compute. discriminate.
Defined.

Lemma login_page_failure_witness :
  Api.status Demo.unauthorized_response = 401
  ∧ ∃ b' s',
      LoginPage.handleSubmit Demo.stringify (LoginPage.Rejected (Some "Invalid credentials"))
        (Api.receive Demo.unauthorized_response Demo.browser).2
        (LoginPage.mkState "" false) = (b', s')
      ∧ App.isLoggedIn b' = false
      ∧ Api.location_href b' = "/login"
      ∧ LoginPage.error s' = "Invalid credentials".
Proof.
  split; [reflexivity|].
  destruct (proj2 (login_page_failure Demo.stringify Demo.unauthorized_response
                     (Some "Invalid credentials") Demo.browser
                     (LoginPage.mkState "" false)) eq_refl)
    as (b' & s' & Hrun & Hout & Hhref & _ & _ & Hmsg).
  exists b', s'. split; [exact Hrun|]. split; [exact Hout|]. split; [exact Hhref|].
  by apply (Hmsg "Invalid credentials").
Defined.

Section RegisterTwice.
Context `{Bcrypt} (jwtService : JwtService.t).

(** X19: registering the same email a second time, right after a
    registration that went through, fails with the 401 for a taken email
    whatever the other fields of the second request are, and the record the
    first registration stored stays in the store unchanged. *)
Theorem register_twice (now now' : Z) (salt salt' : string) (dto dto' : RegisterDto.t)
    (db db' : Db) (resp : LoginResponse) :
  AuthService.register jwtService now salt dto db = (Ok resp, db') →
  RegisterDto.email dto' = RegisterDto.email dto →
  AuthService.register jwtService now' salt' dto' db'
  = (Throw (UnauthorizedException "Email already exists"), db')
  ∧ registered salt dto db ∈ users db'.
Proof.
  intros Hrun Hemail.
  destruct (user_by_email db (RegisterDto.email dto)) as [v|] eqn:Hfind.
  { rewrite (register_taken jwtService now salt dto db) in Hrun; [done|by eexists]. }
  rewrite (register_fresh jwtService now salt dto db Hfind) in Hrun.
  injection Hrun as <- <-.
  assert (registered salt dto db ∈ users (with_user db (registered salt dto db))) as Hin.
  { simpl. apply elem_of_app. right. by apply list_elem_of_singleton. }
  split; [|exact Hin].
  apply register_taken. rewrite Hemail.
  exact (user_by_email_taken _ _ Hin).
Qed.

End RegisterTwice.

Lemma register_twice_witness :
  ∃ resp db',
    AuthService.register (H:=Demo.bcrypt) Demo.jwtService 100 "s3" Demo.new_dto Demo.db
    = (Ok resp, db')
    ∧ AuthService.register (H:=Demo.bcrypt) Demo.jwtService 200 "s4"
        (RegisterDto.mk "Mallory" "cid@example.com" "other" (Some "admin")) db'
      = (Throw (UnauthorizedException "Email already exists"), db')
    ∧ User.mk 3 "Cid" "cid@example.com" (Demo.hash "pass123" 10 "s3") "student" ∈ users db'.
Proof.
  pose (u := registered (H:=Demo.bcrypt) "s3" Demo.new_dto Demo.db).
  assert (AuthService.register (H:=Demo.bcrypt) Demo.jwtService 100 "s3" Demo.new_dto Demo.db
          = (Ok (response_of Demo.jwtService 100 u), with_user Demo.db u)) as Hrun
    by (vm_compute; reflexivity).
  eexists _, _. split; [exact Hrun|].
  exact (register_twice (H:=Demo.bcrypt) Demo.jwtService 100 200 "s3" "s4" Demo.new_dto
           (RegisterDto.mk "Mallory" "cid@example.com" "other" (Some "admin"))
           Demo.db _ _ Hrun eq_refl).
Defined.
